(** * AstroInsight MCP server: task registry, tool dispatch and stream envelope

    A shallow embedding of [mcp_server.py] (the [TaskManager] class, the
    synchronous tools, the asynchronous [generate_research_idea] tool with its
    background coroutine, [get_task_status]) and of
    [app/api/common.py] ([StreamAPIResponse.error_stream_gen]).

    Python dictionaries with a fixed set of keys become records, the task
    registry [self.tasks] becomes a [gmap string task], responses and
    collaborator values are terms of a small universe of Python values, and
    [try ... except Exception] is an explicit error monad.  Readings of
    [datetime.now()] are inputs of the operations that take them. *)

From Stdlib Require Import ZArith List String Ascii Lia.
From stdpp Require Import base option list gmap strings pretty.

Local Open Scope string_scope.
Set Warnings "-register-all".
Set Default Proof Using "Type".

(** ** Python values *)

Module Py.

(** The values that flow through the modelled code: [None], booleans,
    integers, strings, lists and dictionaries with string keys (kept in
    insertion order, as Python dictionaries are). *)
Inductive pyval : Type :=
| PyNone
| PyBool (b : bool)
| PyInt (z : Z)
| PyStr (s : string)
| PyList (l : list pyval)
| PyDict (d : list (string * pyval)).

(** [bool(v)], the test behind [if not v]. *)
Definition truthy (v : pyval) : bool :=
  match v with
  | PyNone => false
  | PyBool b => b
  | PyInt z => negb (Z.eqb z 0)
  | PyStr s => negb (String.eqb s "")
  | PyList l => match l with [] => false | _ => true end
  | PyDict d => match d with [] => false | _ => true end
  end.

(** [type(v).__name__]. *)
Definition type_name (v : pyval) : string :=
  match v with
  | PyNone => "NoneType"
  | PyBool _ => "bool"
  | PyInt _ => "int"
  | PyStr _ => "str"
  | PyList _ => "list"
  | PyDict _ => "dict"
  end.

(** An instance of a class below [Exception]: its class name and [str(e)]. *)
Record exc : Type := Exc { exc_class : string; exc_str : string }.

(** The outcome of evaluating a Python expression or call. *)
Inductive outcome (A : Type) : Type :=
| Ret (a : A)
| Raise (e : exc).
Arguments Ret {A} a.
Arguments Raise {A} e.

Definition bind {A B} (m : outcome A) (k : A -> outcome B) : outcome B :=
  match m with
  | Ret a => k a
  | Raise e => Raise e
  end.

(** [try: body  except Exception as e: handler e]. *)
Definition try_except {A} (body : outcome A) (handler : exc -> outcome A) : outcome A :=
  match body with
  | Ret a => Ret a
  | Raise e => handler e
  end.

Fixpoint assoc_get (d : list (string * pyval)) (k : string) : option pyval :=
  match d with
  | [] => None
  | (k', v) :: d' => if String.eqb k' k then Some v else assoc_get d' k
  end.

(** The single quote character, for the interpreter's messages. *)
Definition sq : string := String "039"%char "".

(** [v.get(k, default)]: only dictionaries have the method. *)
Definition py_get (v : pyval) (k : string) (default : pyval) : outcome pyval :=
  match v with
  | PyDict d => Ret (match assoc_get d k with Some x => x | None => default end)
  | _ => Raise (Exc "AttributeError"
                    (sq ++ type_name v ++ sq ++ " object has no attribute " ++ sq ++ "get" ++ sq))
  end.

(** Strings are kept as their UTF-8 bytes; a Python [str] is a sequence of
    code points.  A byte [10xxxxxx] continues the code point before it. *)
Definition is_cont (c : ascii) : bool :=
  (128 <=? nat_of_ascii c)%nat && (nat_of_ascii c <? 192)%nat.

Fixpoint code_points_go (s : string) : string * list string :=
  match s with
  | EmptyString => ("", [])
  | String c s' =>
      let '(pre, l) := code_points_go s' in
      if is_cont c then (String c pre, l) else ("", String c pre :: l)
  end.

Definition code_points (s : string) : list string :=
  let '(pre, l) := code_points_go s in
  if String.eqb pre "" then l else pre :: l.

Definition chars (s : string) : list pyval := map PyStr (code_points s).

(** [iter(v)] run to exhaustion: the items a [for] loop visits. *)
Definition py_iter (v : pyval) : outcome (list pyval) :=
  match v with
  | PyList l => Ret l
  | PyDict d => Ret (map (fun kv => PyStr (fst kv)) d)
  | PyStr s => Ret (chars s)
  | _ => Raise (Exc "TypeError" (sq ++ type_name v ++ sq ++ " object is not iterable"))
  end.

(** [len(v)]. *)
Definition py_len (v : pyval) : outcome nat :=
  match v with
  | PyList l => Ret (List.length l)
  | PyDict d => Ret (List.length d)
  | PyStr s => Ret (List.length (code_points s))
  | _ => Raise (Exc "TypeError" ("object of type " ++ sq ++ type_name v ++ sq ++ " has no len()"))
  end.

End Py.
Export Py.

#[global] Instance outcome_ret : MRet outcome := @Ret.
#[global] Instance outcome_bind : MBind outcome := fun A B k m => bind m k.

(** ** The task registry ([class TaskManager]) *)

(** A reading of [datetime.now()], through the two views the code takes of
    it: [int(d.timestamp())] and [d.isoformat()]. *)
Record datetime : Type := Datetime { timestamp_int : Z; isoformat : string }.

(** The dictionary stored under each task id. *)
Module Task.
Record t : Type := mk {
  id : string;
  type : string;
  status : string;
  params : list (string * pyval);
  created_at : string;
  updated_at : string;
  result : pyval;
  error : option string;
  progress : Z
}.
End Task.

Module TaskManager.

(** [self.tasks = {}] *)
Definition init : gmap string Task.t := ∅.

(** [f"task_{n}_{ts}"] *)
Definition task_id_of (n : nat) (ts : Z) : string :=
  "task_" ++ pretty n ++ "_" ++ pretty ts.

(** [create_task]: the three arguments [now_id], [now_created] and
    [now_updated] are the three readings of the clock the method takes, in
    program order.  Returns the id and the registry after the assignment
    [self.tasks[task_id] = {...}]. *)
Definition create_task (tasks : gmap string Task.t) (task_type : string)
    (params : list (string * pyval)) (now_id now_created now_updated : datetime)
  : string * gmap string Task.t :=
  let task_id := task_id_of (size tasks + 1) (timestamp_int now_id) in
  (task_id,
   <[task_id := {| Task.id := task_id;
                   Task.type := task_type;
                   Task.status := "pending";
                   Task.params := params;
                   Task.created_at := isoformat now_created;
                   Task.updated_at := isoformat now_updated;
                   Task.result := PyNone;
                   Task.error := None;
                   Task.progress := 0 |}]> tasks).

(** [get_task]: [self.tasks.get(task_id)] *)
Definition get_task (tasks : gmap string Task.t) (task_id : string) : option Task.t :=
  tasks !! task_id.

(** [100 if status == "completed" else 50 if status == "running" else 0] *)
Definition progress_of (status : string) : Z :=
  if String.eqb status "completed" then 100
  else if String.eqb status "running" then 50
  else 0.

(** [update_task]: [dict.update] overwrites five keys of the stored
    dictionary and keeps the other four; an id that is not a key is skipped by
    the [if task_id in self.tasks] test. *)
Definition update_task (tasks : gmap string Task.t) (task_id : string)
    (status : string) (result : pyval) (error : option string) (now : datetime)
  : gmap string Task.t :=
  match tasks !! task_id with
  | Some t =>
      <[task_id := {| Task.id := Task.id t;
                      Task.type := Task.type t;
                      Task.status := status;
                      Task.params := Task.params t;
                      Task.created_at := Task.created_at t;
                      Task.updated_at := isoformat now;
                      Task.result := result;
                      Task.error := error;
                      Task.progress := progress_of status |}]> tasks
  | None => tasks
  end.

End TaskManager.

(** Every key was made by [create_task] when the registry was smaller: its
    counter is at most the number of tasks. *)
Definition ids_bounded (tasks : gmap string Task.t) : Prop :=
  forall k, is_Some (tasks !! k) ->
    exists n ts, k = TaskManager.task_id_of n ts /\ 1 <= n <= size tasks.

(** ** The tools of [mcp_server.py]

    Calls to [logger] are left out: they write to the log and return.  What
    their arguments evaluate is kept where it can raise ([len(keywords)]).
    Each collaborator is an argument of the tool that calls it: a function
    from the tool's arguments to the outcome of the call. *)

Module Tools.

Definition response (success : bool) (message : string) (field : string) (v : pyval) : pyval :=
  PyDict [("success", PyBool success); ("message", PyStr message); (field, v)].

(** The body of the [for paper in papers] loop, up to [append]. *)
Definition format_paper (paper : pyval) : outcome pyval :=
  title ← py_get paper "title" (PyStr "");
  authors ← py_get paper "authors" (PyList []);
  abstract ← py_get paper "abstract" (PyStr "");
  published ← py_get paper "published" (PyStr "");
  url ← py_get paper "url" (PyStr "");
  pdf_url ← py_get paper "pdf_url" (PyStr "");
  mret (PyDict [("title", title); ("authors", authors); ("abstract", abstract);
                ("published", published); ("url", url); ("pdf_url", pdf_url)]).

(** The loop itself: [formatted_papers] grows by [append] at its end. *)
Fixpoint format_loop (papers : list pyval) (formatted_papers : list pyval)
  : outcome (list pyval) :=
  match papers with
  | [] => mret formatted_papers
  | paper :: rest =>
      formatted_paper ← format_paper paper;
      format_loop rest (formatted_papers ++ [formatted_paper])
  end.

Definition search_papers (search_paper : string -> Z -> outcome pyval)
    (keyword : string) (limit : Z) : outcome pyval :=
  try_except
    (papers ← search_paper keyword limit;
     if negb (truthy papers) then
       mret (response false "未找到相关论文" "papers" (PyList []))
     else
       items ← py_iter papers;
       formatted_papers ← format_loop items [];
       mret (response true
               ("成功搜索到 " ++ pretty (List.length formatted_papers) ++ " 篇论文")
               "papers" (PyList formatted_papers)))
    (fun e => mret (response false ("搜索论文时出错: " ++ exc_str e) "papers" (PyList []))).

Definition extract_keywords (extract_technical_entities : string -> string -> outcome pyval)
    (text split_section : string) : outcome pyval :=
  try_except
    (keywords ← extract_technical_entities text split_section;
     if negb (truthy keywords) then
       mret (response false "未能提取到关键词" "keywords" (PyList []))
     else
       _ ← py_len keywords;
       n ← py_len keywords;
       mret (response true ("成功提取到 " ++ pretty n ++ " 个关键词") "keywords" keywords))
    (fun e => mret (response false ("提取关键词时出错: " ++ exc_str e) "keywords" (PyList []))).

Definition review_research_idea (review_mechanism : string -> string -> outcome pyval)
    (topic draft : string) : outcome pyval :=
  try_except
    (review_result ← review_mechanism topic draft;
     if negb (truthy review_result) then
       mret (response false "评审失败" "review" PyNone)
     else
       mret (response true "评审完成" "review" review_result))
    (fun e => mret (response false ("评审时出错: " ++ exc_str e) "review" PyNone)).

Definition compress_paper_content (paper_compression : string -> string -> string -> outcome pyval)
    (title abstract content : string) : outcome pyval :=
  try_except
    (compressed_result ← paper_compression title abstract content;
     if negb (truthy compressed_result) then
       mret (response false "压缩失败" "compressed_content" PyNone)
     else
       mret (response true "压缩完成" "compressed_content" compressed_result))
    (fun e => mret (response false ("压缩时出错: " ++ exc_str e) "compressed_content" PyNone)).

(** [v[k]] read off a response: the value under key [k], if [v] is a
    dictionary with that key. *)
Definition field (v : pyval) (k : string) : option pyval :=
  match v with
  | PyDict d => assoc_get d k
  | _ => None
  end.

Definition py_of_error (error : option string) : pyval :=
  match error with
  | Some msg => PyStr msg
  | None => PyNone
  end.

(** [get_task_status]: the stored dictionary always has its nine keys, so
    [not task] holds exactly when [get_task] returned [None], and each
    subscript [task["..."]] finds its key. *)
Definition get_task_status (tasks : gmap string Task.t) (task_id : string) : outcome pyval :=
  try_except
    (match TaskManager.get_task tasks task_id with
     | None => mret (response false ("未找到任务: " ++ task_id) "task" PyNone)
     | Some task =>
         mret (response true "任务状态获取成功" "task"
                 (PyDict [("id", PyStr (Task.id task));
                          ("type", PyStr (Task.type task));
                          ("status", PyStr (Task.status task));
                          ("progress", PyInt (Task.progress task));
                          ("created_at", PyStr (Task.created_at task));
                          ("updated_at", PyStr (Task.updated_at task));
                          ("error", py_of_error (Task.error task))]))
     end)
    (fun e => mret (response false ("获取任务状态时出错: " ++ exc_str e) "task" PyNone)).

(** The paper record that the loop of [search_papers] makes of a dictionary:
    each of the six keys, or its default. *)
Definition formatted_of (d : list (string * pyval)) : pyval :=
  PyDict [("title", default (PyStr "") (assoc_get d "title"));
          ("authors", default (PyList []) (assoc_get d "authors"));
          ("abstract", default (PyStr "") (assoc_get d "abstract"));
          ("published", default (PyStr "") (assoc_get d "published"));
          ("url", default (PyStr "") (assoc_get d "url"));
          ("pdf_url", default (PyStr "") (assoc_get d "pdf_url"))].

(** A call returned a response dictionary: success flag, message and one
    data field. *)
Definition returns_response (r : outcome pyval) (data_field : string) : Prop :=
  exists success message data, r = Ret (response success message data_field data).

End Tools.

(** ** The asynchronous tool and its background coroutine

    [generate_research_idea] registers a task and hands the coroutine
    [_generate_research_idea_async] to the event loop.  The loop runs one
    coroutine at a time, from one suspension point to the next, so the
    coroutine is cut at its single [await]: before it sits the update to
    "running", after it the update to "completed" or, in the handler of
    [except Exception], to "failed". *)

Module Dispatcher.

Import Tools.

(** Where a coroutine stands: not yet run, suspended on the executor's
    future, or returned. *)
Inductive pc : Type := AtStart | AtAwait | Returned.

Record coroutine : Type := Coroutine {
  co_task_id : string;
  co_keyword : string;
  co_paper_count : Z;
  co_pc : pc
}.

(** The global [task_manager] and the coroutines given to the loop. *)
Record state : Type := State {
  tasks : gmap string Task.t;
  scheduled : list coroutine
}.

Definition init : state := State TaskManager.init [].

(** [asyncio.create_task(coro)] raises when no event loop is running. *)
Definition asyncio_create_task (running_loop : bool) (sched : list coroutine)
    (coro : coroutine) : outcome (list coroutine) :=
  if running_loop then Ret (sched ++ [coro])%list
  else Raise (Exc "RuntimeError" "no running event loop").

(** [generate_research_idea]: the response and the state it leaves.  The
    registry keeps the new task also when scheduling raised. *)
Definition generate_research_idea (s : state) (keyword : string) (paper_count : Z)
    (now_id now_created now_updated : datetime) (running_loop : bool)
  : outcome pyval * state :=
  let '(task_id, tasks') :=
    TaskManager.create_task (tasks s) "generate_research_idea"
      [("keyword", PyStr keyword); ("paper_count", PyInt paper_count)]
      now_id now_created now_updated in
  match asyncio_create_task running_loop (scheduled s)
          (Coroutine task_id keyword paper_count AtStart) with
  | Ret sched' =>
      (Ret (response true "研究想法生成任务已启动" "task_id" (PyStr task_id)),
       State tasks' sched')
  | Raise e =>
      (Ret (response false ("创建任务时出错: " ++ exc_str e) "task_id" PyNone),
       State tasks' (scheduled s))
  end.

Definition with_pc (co : coroutine) (p : pc) : coroutine :=
  Coroutine (co_task_id co) (co_keyword co) (co_paper_count co) p.

(** First segment of [_generate_research_idea_async]: up to the [await]. *)
Definition resume_start (tks : gmap string Task.t) (co : coroutine) (now : datetime)
  : gmap string Task.t :=
  TaskManager.update_task tks (co_task_id co) "running" PyNone None now.

(** Second segment: [astro_main] returned [result] or raised [e] in the
    executor. *)
Definition resume_await (tks : gmap string Task.t) (co : coroutine)
    (astro_main : outcome pyval) (now : datetime) : gmap string Task.t :=
  match astro_main with
  | Ret result =>
      TaskManager.update_task tks (co_task_id co) "completed" result None now
  | Raise e =>
      let error_msg := "生成研究想法时出错: " ++ exc_str e in
      TaskManager.update_task tks (co_task_id co) "failed" PyNone (Some error_msg) now
  end.

(** What can happen next: a host calls the asynchronous tool, the loop runs
    the [i]-th coroutine over one segment, or a host polls a task. *)
Inductive event : Type :=
| CallGenerate (keyword : string) (paper_count : Z)
    (now_id now_created now_updated : datetime) (running_loop : bool)
| RunStart (i : nat) (now : datetime)
| RunAwait (i : nat) (astro_main : outcome pyval) (now : datetime)
| CallStatus (task_id : string).

(** One event; [None] when the loop cannot run that segment. *)
Definition step (s : state) (ev : event) : option state :=
  match ev with
  | CallGenerate keyword paper_count now_id now_created now_updated running_loop =>
      Some (snd (generate_research_idea s keyword paper_count
                   now_id now_created now_updated running_loop))
  | RunStart i now =>
      match scheduled s !! i with
      | Some co =>
          match co_pc co with
          | AtStart =>
              Some (State (resume_start (tasks s) co now)
                          (<[i := with_pc co AtAwait]> (scheduled s)))
          | _ => None
          end
      | None => None
      end
  | RunAwait i astro_main now =>
      match scheduled s !! i with
      | Some co =>
          match co_pc co with
          | AtAwait =>
              Some (State (resume_await (tasks s) co astro_main now)
                          (<[i := with_pc co Returned]> (scheduled s)))
          | _ => None
          end
      | None => None
      end
  | CallStatus task_id =>
      match get_task_status (tasks s) task_id with
      | _ => Some s
      end
  end.

(** The states a sequence of events goes through, the first one included;
    it ends at an event that cannot happen. *)
Fixpoint run (s : state) (evs : list event) : list state :=
  match evs with
  | [] => [s]
  | ev :: evs' =>
      match step s ev with
      | Some s' => s :: run s' evs'
      | None => [s]
      end
  end.

(** The statuses seen for [task_id] along a list of states. *)
Definition observed (task_id : string) (l : list state) : list string :=
  omap (fun s => Task.status <$> tasks s !! task_id) l.

(** Drops the repetitions of a status that did not change. *)
Fixpoint squash (l : list string) : list string :=
  match l with
  | [] => []
  | a :: l' =>
      match l' with
      | [] => [a]
      | b :: _ => if String.eqb a b then squash l' else a :: squash l'
      end
  end.

(** The status a task has while its coroutine stands at a given point. *)
Definition pc_status (p : pc) (status : string) : Prop :=
  match p with
  | AtStart => status = "pending"
  | AtAwait => status = "running"
  | Returned => status = "completed" \/ status = "failed"
  end.

(** A result only on a completed task, an error only on a failed one. *)
Definition fields_match (t : Task.t) : Prop :=
  (Task.result t <> PyNone -> Task.status t = "completed")
  /\ (Task.error t <> None -> Task.status t = "failed").

(** What holds of every state the dispatcher reaches: ids are those that
    [create_task] made; no two coroutines work on one task; a task with a
    coroutine has the status of the point where the coroutine stands; a task
    without one is pending. *)
Record inv (s : state) : Prop := Inv {
  inv_ids : ids_bounded (tasks s);
  inv_nodup : NoDup (co_task_id <$> scheduled s);
  inv_sched : forall co : coroutine, co ∈ scheduled s ->
    exists t, tasks s !! co_task_id co = Some t /\ pc_status (co_pc co) (Task.status t);
  inv_idle : forall (k : string) (t : Task.t), tasks s !! k = Some t ->
    k ∉ (co_task_id <$> scheduled s) -> Task.status t = "pending";
  inv_fields : forall (k : string) (t : Task.t), tasks s !! k = Some t -> fields_match t
}.

(** One move forward in the life cycle. *)
Definition advance (a b : string) : Prop :=
  (a = "pending" /\ b = "running")
  \/ (a = "running" /\ (b = "completed" \/ b = "failed")).

Fixpoint chain (l : list string) : Prop :=
  match l with
  | [] => True
  | a :: l' =>
      match l' with
      | [] => True
      | b :: _ => advance a b /\ chain l'
      end
  end.

(** What the state looks like for a key [k] across one event: a task that
    was there is still there, with the same status or the next one; a task
    that appears is pending. *)
Definition moves (s s' : state) (k : string) : Prop :=
  match tasks s !! k with
  | Some t =>
      exists t', tasks s' !! k = Some t'
        /\ (Task.status t' = Task.status t \/ advance (Task.status t) (Task.status t'))
  | None => forall t', tasks s' !! k = Some t' -> Task.status t' = "pending"
  end.

End Dispatcher.

(** Sequences of calls to the two mutating methods of [TaskManager]. *)
Module Ops.

Inductive op : Type :=
| Create (task_type : string) (params : list (string * pyval))
    (now_id now_created now_updated : datetime)
| Update (task_id : string) (status : string) (result : pyval)
    (error : option string) (now : datetime).

Definition apply (tasks : gmap string Task.t) (o : op) : gmap string Task.t :=
  match o with
  | Create task_type params now_id now_created now_updated =>
      snd (TaskManager.create_task tasks task_type params now_id now_created now_updated)
  | Update task_id status result error now =>
      TaskManager.update_task tasks task_id status result error now
  end.

Definition apply_all (tasks : gmap string Task.t) (ops : list op) : gmap string Task.t :=
  fold_left apply ops tasks.

(** The registries a [TaskManager] can hold: the one [__init__] sets up, and
    the ones its methods make of them. *)
Definition reachable (tasks : gmap string Task.t) : Prop :=
  exists ops, tasks = apply_all TaskManager.init ops.

(** The ids that the [create_task] calls of a sequence return, in order. *)
Fixpoint returned_ids (tasks : gmap string Task.t) (ops : list op) : list string :=
  match ops with
  | [] => []
  | o :: rest =>
      match o with
      | Create task_type params now_id now_created now_updated =>
          fst (TaskManager.create_task tasks task_type params now_id now_created now_updated)
          :: returned_ids (apply tasks o) rest
      | Update _ _ _ _ _ => returned_ids (apply tasks o) rest
      end
  end.

End Ops.

(** ** [json.dumps(obj, ensure_ascii=False)] *)

Module Json.

Definition dq : string := String "034"%char "".

Definition hex_digit (n : nat) : string :=
  match n with
  | 0 => "0" | 1 => "1" | 2 => "2" | 3 => "3" | 4 => "4" | 5 => "5" | 6 => "6"
  | 7 => "7" | 8 => "8" | 9 => "9" | 10 => "a" | 11 => "b" | 12 => "c"
  | 13 => "d" | 14 => "e" | _ => "f"
  end%nat.

(** The replacement table of the encoder: the quote, the backslash and the
    bytes below 32 are escaped; every other byte stands for itself. *)
Definition escape (c : ascii) : string :=
  let n := nat_of_ascii c in
  if (n =? 34)%nat then "\" ++ dq
  else if (n =? 92)%nat then "\\"
  else if (n =? 8)%nat then "\b"
  else if (n =? 12)%nat then "\f"
  else if (n =? 10)%nat then "\n"
  else if (n =? 13)%nat then "\r"
  else if (n =? 9)%nat then "\t"
  else if (n <? 32)%nat then "\u00" ++ hex_digit (n / 16) ++ hex_digit (n mod 16)
  else String c "".

Fixpoint escape_all (s : string) : string :=
  match s with
  | EmptyString => ""
  | String c s' => escape c ++ escape_all s'
  end.

Definition encode_basestring (s : string) : string := dq ++ escape_all s ++ dq.

(** The default separators are [", "] and [": "]. *)
Fixpoint dumps (v : pyval) : string :=
  match v with
  | PyNone => "null"
  | PyBool b => if b then "true" else "false"
  | PyInt z => pretty z
  | PyStr s => encode_basestring s
  | PyList l => "[" ++ String.concat ", " (map dumps l) ++ "]"
  | PyDict d =>
      "{" ++ String.concat ", "
               (map (fun kv => encode_basestring (fst kv) ++ ": " ++ dumps (snd kv)) d)
          ++ "}"
  end.

End Json.

(** ** [app/api/common.py]: the stream of the error response *)

Module StreamAPIResponse.

Definition nl : string := String "010"%char "".

(** The frames the generator [error_stream_gen] yields, in order, until it
    is exhausted. *)
Definition error_stream_gen : list string :=
  let error_message :=
    PyDict [("choices",
             PyList [PyDict [("delta",
                              PyDict [("role", PyStr "assistant");
                                      ("content", PyStr "当前操作无法完成，请稍后再试")])]])] in
  let chunks :=
    ["data: " ++ Json.dumps error_message ++ nl ++ nl;
     "data: [DONE]" ++ nl ++ nl] in
  chunks.

End StreamAPIResponse.

(** ** Decimal numerals *)

Definition is_digit (c : ascii) : bool :=
  (48 <=? nat_of_ascii c)%nat && (nat_of_ascii c <=? 57)%nat.

Fixpoint all_digits (s : string) : bool :=
  match s with
  | EmptyString => true
  | String c s' => is_digit c && all_digits s'
  end.

(** ** Concrete registries and runs *)

Module Sample.

Definition d0 : datetime := Datetime 1700000000 "2023-11-14T22:13:20".
Definition d1 : datetime := Datetime 1700000007 "2023-11-14T22:13:27".

Definition params0 : list (string * pyval) :=
  [("keyword", PyStr "dark matter"); ("paper_count", PyInt 3)].

Definition T1 : string := "task_1_1700000000".

(** One task, created and then set running. *)
Definition ops_running : list Ops.op :=
  [Ops.Create "generate_idea" params0 d0 d0 d0;
   Ops.Update T1 "running" PyNone None d1].

Definition tasks_running : gmap string Task.t :=
  Ops.apply_all TaskManager.init ops_running.

Definition t_running : Task.t :=
  {| Task.id := T1; Task.type := "generate_idea"; Task.status := "running";
     Task.params := params0; Task.created_at := isoformat d0;
     Task.updated_at := isoformat d1; Task.result := PyNone; Task.error := None;
     Task.progress := 50 |}.

(** The same task after its background coroutine completed with a result. *)
Definition R : pyval := PyDict [("idea", PyStr "axion haloes")].

Definition tasks_completed : gmap string Task.t :=
  TaskManager.update_task tasks_running T1 "completed" R None d1.

(** One call of the asynchronous tool, and its coroutine run to the end. *)
Definition T2 : string := "task_1_1700000000".

Definition evs_done : list Dispatcher.event :=
  [Dispatcher.CallGenerate "dark matter" 3 d0 d0 d0 true;
   Dispatcher.RunStart 0 d1;
   Dispatcher.RunAwait 0 (Ret R) d1].

Definition t_done : Task.t :=
  {| Task.id := T2; Task.type := "generate_research_idea"; Task.status := "completed";
     Task.params := params0; Task.created_at := isoformat d0;
     Task.updated_at := isoformat d1; Task.result := R; Task.error := None;
     Task.progress := 100 |}.

Definition s_done : Dispatcher.state :=
  Dispatcher.State {[ T2 := t_done ]}
    [Dispatcher.Coroutine T2 "dark matter" 3 Dispatcher.Returned].

End Sample.

(** ** Notions for the further properties *)

(** A tool call returned a response whose success flag is [True]. *)
Definition succeeded (r : outcome pyval) : Prop :=
  exists resp, r = Ret resp /\ Tools.field resp "success" = Some (PyBool true).

(** The keys that [create_task] writes and [update_task] leaves alone. *)
Definition same_identity (t t' : Task.t) : Prop :=
  Task.id t' = Task.id t
  /\ Task.type t' = Task.type t
  /\ Task.params t' = Task.params t
  /\ Task.created_at t' = Task.created_at t.

(** The keys of a paper record in the response of [search_papers]. *)
Definition paper_keys : list string :=
  ["title"; "authors"; "abstract"; "published"; "url"; "pdf_url"].

Definition is_dict (v : pyval) : bool :=
  match v with
  | PyDict _ => true
  | _ => false
  end.

(** Collaborators and dispatcher states for the further properties. *)
Module Scenario.

Definition paper : list (string * pyval) :=
  [("title", PyStr "Halo"); ("year", PyInt 2020)].

Definition search_ok (_ : string) (_ : Z) : outcome pyval :=
  Ret (PyList [PyDict paper]).








End Scenario.

(** A registry with two tasks. *)
Module TwoTasks.

Definition TA : string := "task_1_1700000000".
Definition TB : string := "task_2_1700000007".

Definition ops_two : list Ops.op :=
  [Ops.Create "generate_idea" Sample.params0 Sample.d0 Sample.d0 Sample.d0;
   Ops.Create "review_idea" [] Sample.d1 Sample.d1 Sample.d1].

Definition tasks_two : gmap string Task.t :=
  Ops.apply_all TaskManager.init ops_two.

Definition t_first : Task.t :=
  {| Task.id := TA; Task.type := "generate_idea"; Task.status := "pending";
     Task.params := Sample.params0; Task.created_at := isoformat Sample.d0;
     Task.updated_at := isoformat Sample.d0; Task.result := PyNone;
     Task.error := None; Task.progress := 0 |}.

Definition t_second : Task.t :=
  {| Task.id := TB; Task.type := "review_idea"; Task.status := "pending";
     Task.params := []; Task.created_at := isoformat Sample.d1;
     Task.updated_at := isoformat Sample.d1; Task.result := PyNone;
     Task.error := None; Task.progress := 0 |}.

End TwoTasks.

(** ** The synchronous tools under every kind of raise

    [except Exception] catches the instances of the classes below
    [Exception].  A class that derives from [BaseException] only
    ([SystemExit], [KeyboardInterrupt], [GeneratorExit],
    [asyncio.CancelledError]) is not matched by the clause, and its instance
    goes on to the caller.  The tools of [Tools] are the tools on
    collaborators that return or raise below [Exception]; here the
    collaborator may raise either kind. *)

Module AnyRaise.

Import Tools.

Inductive raised : Type :=
| Below (e : exc)
| BaseOnly (e : exc).

Inductive outcome_any (A : Type) : Type :=
| Return (a : A)
| Propagate (r : raised).
Arguments Return {A} a.
Arguments Propagate {A} r.

Definition bind_any {A B} (m : outcome_any A) (k : A -> outcome_any B) : outcome_any B :=
  match m with
  | Return a => k a
  | Propagate r => Propagate r
  end.

#[global] Instance outcome_any_ret : MRet outcome_any := @Return.
#[global] Instance outcome_any_bind : MBind outcome_any := fun A B k m => bind_any m k.

(** The operations of the interpreter raise below [Exception]. *)
Definition lift {A} (o : outcome A) : outcome_any A :=
  match o with
  | Ret a => Return a
  | Raise e => Propagate (Below e)
  end.

(** [try: body  except Exception as e: handler e]. *)
Definition try_except_Exception {A} (body : outcome_any A)
    (handler : exc -> outcome_any A) : outcome_any A :=
  match body with
  | Return a => Return a
  | Propagate (Below e) => handler e
  | Propagate (BaseOnly e) => Propagate (BaseOnly e)
  end.

Definition search_papers (search_paper : string -> Z -> outcome_any pyval)
    (keyword : string) (limit : Z) : outcome_any pyval :=
  try_except_Exception
    (papers ← search_paper keyword limit;
     if negb (truthy papers) then
       mret (response false "未找到相关论文" "papers" (PyList []))
     else
       items ← lift (py_iter papers);
       formatted_papers ← lift (format_loop items []);
       mret (response true
               ("成功搜索到 " ++ pretty (List.length formatted_papers) ++ " 篇论文")
               "papers" (PyList formatted_papers)))
    (fun e => mret (response false ("搜索论文时出错: " ++ exc_str e) "papers" (PyList []))).

Definition extract_keywords
    (extract_technical_entities : string -> string -> outcome_any pyval)
    (text split_section : string) : outcome_any pyval :=
  try_except_Exception
    (keywords ← extract_technical_entities text split_section;
     if negb (truthy keywords) then
       mret (response false "未能提取到关键词" "keywords" (PyList []))
     else
       _ ← lift (py_len keywords);
       n ← lift (py_len keywords);
       mret (response true ("成功提取到 " ++ pretty n ++ " 个关键词") "keywords" keywords))
    (fun e => mret (response false ("提取关键词时出错: " ++ exc_str e) "keywords" (PyList []))).

Definition review_research_idea (review_mechanism : string -> string -> outcome_any pyval)
    (topic draft : string) : outcome_any pyval :=
  try_except_Exception
    (review_result ← review_mechanism topic draft;
     if negb (truthy review_result) then
       mret (response false "评审失败" "review" PyNone)
     else
       mret (response true "评审完成" "review" review_result))
    (fun e => mret (response false ("评审时出错: " ++ exc_str e) "review" PyNone)).

Definition compress_paper_content
    (paper_compression : string -> string -> string -> outcome_any pyval)
    (title abstract content : string) : outcome_any pyval :=
  try_except_Exception
    (compressed_result ← paper_compression title abstract content;
     if negb (truthy compressed_result) then
       mret (response false "压缩失败" "compressed_content" PyNone)
     else
       mret (response true "压缩完成" "compressed_content" compressed_result))
    (fun e => mret (response false ("压缩时出错: " ++ exc_str e) "compressed_content" PyNone)).

End AnyRaise.

(** * Properties *)

(** ** Task ids *)

Section decimal.


Lemma pretty_N_char_digit x : is_digit (pretty_N_char x) = true.
Proof. unfold pretty_N_char. by repeat case_match. Qed.

Lemma pretty_N_go_digits x s :
  all_digits s = true -> all_digits (pretty_N_go x s) = true.
Proof.
  revert s. induction (N.lt_wf_0 x) as [x _ IH]; intros s Hs.
  destruct (decide (x = 0)%N) as [->|Hx]; [by rewrite pretty_N_go_0|].
  rewrite pretty_N_go_step by lia.
  apply IH; [apply N.div_lt; lia|].
  simpl. by rewrite pretty_N_char_digit.
Qed.

Lemma pretty_nat_digits (n : nat) : all_digits (pretty n) = true.
Proof.
  unfold pretty, pretty_nat, pretty, pretty_N.
  case_decide; [done|]. by apply pretty_N_go_digits.
Qed.

(** Two decimal numerals followed by an underscore agree as soon as the
    texts they start agree. *)
Lemma digits_sep_inj d1 d2 r1 r2 :
  all_digits d1 = true -> all_digits d2 = true ->
  d1 ++ "_" ++ r1 = d2 ++ "_" ++ r2 -> d1 = d2 /\ r1 = r2.
Proof.
  revert d2. induction d1 as [|c d1 IH]; intros [|c' d2] H1 H2 Heq; simpl in *.
  - by simplify_eq.
  - injection Heq as <- _. discriminate H2.
  - injection Heq as -> _. discriminate H1.
  - apply andb_prop in H1 as [_ H1]. apply andb_prop in H2 as [_ H2].
    injection Heq as -> Heq. destruct (IH _ H1 H2 Heq) as [-> ->]. done.
Qed.

Lemma task_id_of_inj n1 n2 ts1 ts2 :
  TaskManager.task_id_of n1 ts1 = TaskManager.task_id_of n2 ts2 -> n1 = n2 /\ ts1 = ts2.
Proof.
  unfold TaskManager.task_id_of. intros Heq. simpl in Heq.
  injection Heq as Heq.
  apply digits_sep_inj in Heq as [Hn Hts]; auto using pretty_nat_digits.
  split; [by apply (inj pretty)|by apply (inj pretty)].
Qed.

End decimal.

(** ** The registry *)

Section registry.

Implicit Types (tasks : gmap string Task.t) (t : Task.t).


Lemma ids_bounded_init : ids_bounded TaskManager.init.
Proof. intros k [t Ht]. unfold TaskManager.init in Ht. by rewrite lookup_empty in Ht. Qed.

Lemma create_task_fresh tasks task_type params d1 d2 d3 :
  ids_bounded tasks ->
  tasks !! fst (TaskManager.create_task tasks task_type params d1 d2 d3) = None.
Proof.
  intros Hb. simpl. apply eq_None_not_Some. intros Hin.
  destruct (Hb _ Hin) as (n & ts & Heq & Hn).
  apply task_id_of_inj in Heq as [<- _]. lia.
Qed.

Lemma update_task_lookup_eq tasks k status result error now t :
  tasks !! k = Some t ->
  TaskManager.update_task tasks k status result error now !! k
  = Some {| Task.id := Task.id t; Task.type := Task.type t; Task.status := status;
            Task.params := Task.params t; Task.created_at := Task.created_at t;
            Task.updated_at := isoformat now; Task.result := result;
            Task.error := error; Task.progress := TaskManager.progress_of status |}.
Proof. intros Ht. unfold TaskManager.update_task. rewrite Ht. apply lookup_insert_eq. Qed.

Lemma update_task_lookup_ne tasks k k' status result error now :
  k <> k' ->
  TaskManager.update_task tasks k status result error now !! k' = tasks !! k'.
Proof.
  intros Hne. unfold TaskManager.update_task.
  destruct (tasks !! k); [by rewrite lookup_insert_ne|done].
Qed.

Lemma update_task_absent tasks k status result error now :
  tasks !! k = None ->
  TaskManager.update_task tasks k status result error now = tasks.
Proof. intros Hk. unfold TaskManager.update_task. by rewrite Hk. Qed.

Lemma update_task_is_Some tasks k k' status result error now :
  is_Some (TaskManager.update_task tasks k status result error now !! k')
  <-> is_Some (tasks !! k').
Proof.
  destruct (decide (k = k')) as [<-|Hne].
  - destruct (tasks !! k) as [t|] eqn:Ht.
    + erewrite update_task_lookup_eq by done. split; eauto.
    + rewrite update_task_absent by done. by rewrite Ht.
  - by rewrite update_task_lookup_ne.
Qed.

Lemma update_task_size tasks k status result error now :
  size (TaskManager.update_task tasks k status result error now) = size tasks.
Proof.
  unfold TaskManager.update_task. destruct (tasks !! k) as [t|] eqn:Ht; [|done].
  by rewrite map_size_insert_Some.
Qed.

Lemma ids_bounded_update tasks k status result error now :
  ids_bounded tasks ->
  ids_bounded (TaskManager.update_task tasks k status result error now).
Proof.
  intros Hb k' Hk'. rewrite update_task_size.
  apply Hb. by eapply update_task_is_Some.
Qed.

Lemma ids_bounded_create tasks task_type params d1 d2 d3 :
  ids_bounded tasks ->
  ids_bounded (snd (TaskManager.create_task tasks task_type params d1 d2 d3)).
Proof.
  intros Hb k Hk.
  pose proof (create_task_fresh tasks task_type params d1 d2 d3 Hb) as Hfresh.
  simpl in *. rewrite map_size_insert_None by done.
  destruct (decide (TaskManager.task_id_of (size tasks + 1) (timestamp_int d1) = k))
    as [<-|Hne].
  - eexists _, _. split; [done|]. lia.
  - rewrite lookup_insert_ne in Hk by done.
    destruct (Hb _ Hk) as (n & ts & -> & Hn). eexists _, _. split; [done|]. lia.
Qed.

Lemma ids_bounded_apply tasks o : ids_bounded tasks -> ids_bounded (Ops.apply tasks o).
Proof.
  destruct o; simpl; [apply ids_bounded_create|apply ids_bounded_update].
Qed.

Lemma ids_bounded_apply_all ops tasks :
  ids_bounded tasks -> ids_bounded (Ops.apply_all tasks ops).
Proof.
  revert tasks. induction ops as [|o ops IH]; intros tasks Hb; [done|].
  simpl. apply IH. by apply ids_bounded_apply.
Qed.

Lemma ids_bounded_reachable tasks : Ops.reachable tasks -> ids_bounded tasks.
Proof. intros [ops ->]. apply ids_bounded_apply_all, ids_bounded_init. Qed.

Lemma apply_all_snoc tasks ops o :
  Ops.apply_all tasks (ops ++ [o])%list = Ops.apply (Ops.apply_all tasks ops) o.
Proof. unfold Ops.apply_all. by rewrite fold_left_app. Qed.

Lemma reachable_apply tasks o : Ops.reachable tasks -> Ops.reachable (Ops.apply tasks o).
Proof. intros [ops ->]. exists (ops ++ [o])%list. by rewrite apply_all_snoc. Qed.

(** A key of the registry stays one, whatever is called next. *)
Lemma apply_is_Some tasks o k : is_Some (tasks !! k) -> is_Some (Ops.apply tasks o !! k).
Proof.
  intros Hk. destruct o; simpl.
  - destruct (decide (TaskManager.task_id_of (size tasks + 1) (timestamp_int now_id) = k))
      as [<-|Hne]; [rewrite lookup_insert_eq; eauto|by rewrite lookup_insert_ne].
  - by apply update_task_is_Some.
Qed.

Lemma returned_ids_fresh ops tasks k :
  ids_bounded tasks -> is_Some (tasks !! k) -> k ∉ Ops.returned_ids tasks ops.
Proof.
  revert tasks. induction ops as [|o ops IH]; intros tasks Hb Hk; [apply not_elem_of_nil|].
  pose proof (IH _ (ids_bounded_apply _ o Hb) (apply_is_Some _ o _ Hk)) as Hrest.
  destruct o; simpl; [|done].
  apply not_elem_of_cons. split; [|done].
  intros ->. destruct Hk as [t Ht].
  pose proof (create_task_fresh tasks task_type params now_id now_created now_updated Hb)
    as Hfresh.
  simpl in *. congruence.
Qed.

Lemma returned_ids_NoDup ops tasks :
  ids_bounded tasks -> NoDup (Ops.returned_ids tasks ops).
Proof.
  revert tasks. induction ops as [|o ops IH]; intros tasks Hb; [constructor|].
  pose proof (IH _ (ids_bounded_apply _ o Hb)) as Hrest.
  destruct o; simpl; [|done].
  constructor; [|done].
  apply returned_ids_fresh; [by apply (ids_bounded_apply _ (Ops.Create _ _ _ _ _))|].
  simpl. rewrite lookup_insert_eq. eauto.
Qed.

End registry.

Section registry_claims.

Implicit Types (tasks : gmap string Task.t) (t : Task.t).

Lemma returned_ids_app ops ops' tasks :
  Ops.returned_ids tasks (ops ++ ops')
  = (Ops.returned_ids tasks ops ++ Ops.returned_ids (Ops.apply_all tasks ops) ops')%list.
Proof.
  revert tasks. induction ops as [|o ops IH]; intros tasks; [done|].
  destruct o; simpl; rewrite IH; done.
Qed.

Lemma apply_all_is_Some ops tasks k :
  is_Some (tasks !! k) -> is_Some (Ops.apply_all tasks ops !! k).
Proof.
  revert tasks. induction ops as [|o ops IH]; intros tasks Hk; [done|].
  simpl. by apply IH, apply_is_Some.
Qed.

Lemma returned_ids_registered ops tasks k :
  k ∈ Ops.returned_ids tasks ops -> is_Some (Ops.apply_all tasks ops !! k).
Proof.
  revert tasks. induction ops as [|o ops IH]; intros tasks Hk; [by apply elem_of_nil in Hk|].
  destruct o; simpl in *; [|by apply IH].
  apply elem_of_cons in Hk as [->|Hk]; [|by apply IH].
  apply apply_all_is_Some. rewrite lookup_insert_eq. eauto.
Qed.

(** C1.  Along every sequence of [create_task] and [update_task] calls on a
    fresh manager, the ids that [create_task] has returned are pairwise
    distinct; one more [create_task] call, with any type, parameters and clock
    readings, returns an id that none of the earlier calls returned and that
    is not a key of the registry, stores a record under it, and keeps every
    record that was there: the registry grows by exactly one entry. *)
Theorem create_task_ids_pairwise_distinct
    (ops : list Ops.op) (task_type : string) (params : list (string * pyval))
    (now_id now_created now_updated : datetime) :
  let tasks := Ops.apply_all TaskManager.init ops in
  let task_id :=
    fst (TaskManager.create_task tasks task_type params now_id now_created now_updated) in
  let tasks' :=
    snd (TaskManager.create_task tasks task_type params now_id now_created now_updated) in
  NoDup (Ops.returned_ids TaskManager.init ops)
  /\ (task_id ∉ Ops.returned_ids TaskManager.init ops)
  /\ NoDup (Ops.returned_ids TaskManager.init
              (ops ++ [Ops.Create task_type params now_id now_created now_updated]))
  /\ tasks !! task_id = None
  /\ is_Some (tasks' !! task_id)
  /\ tasks ⊆ tasks'
  /\ size tasks' = S (size tasks).
Proof.
  intros tasks task_id tasks'.
  assert (ids_bounded tasks) as Hb
    by (apply ids_bounded_apply_all, ids_bounded_init).
  assert (tasks !! task_id = None) as Hfresh by (by apply create_task_fresh).
  assert (task_id ∉ Ops.returned_ids TaskManager.init ops) as Hnew.
  { intros Hin%returned_ids_registered. fold tasks in Hin.
    rewrite Hfresh in Hin. by destruct Hin. }
  split_and!; try done.
  - apply returned_ids_NoDup, ids_bounded_init.
  - rewrite returned_ids_app. simpl. apply NoDup_app. split_and!.
    + apply returned_ids_NoDup, ids_bounded_init.
    + intros k Hk Hk'. apply list_elem_of_singleton in Hk' as ->. by apply Hnew.
    + apply NoDup_singleton.
  - subst tasks'. simpl. rewrite lookup_insert_eq. eauto.
  - subst tasks'. simpl. by apply insert_subseteq.
  - subst tasks'. simpl. by apply map_size_insert_None.
Qed.

(** C3.  In every registry that calls to [create_task] and [update_task]
    (with any arguments) have made of a fresh manager, each record's progress
    is the one its status gives: 0 for "pending", 50 for "running", 100 for
    "completed" and 0 for "failed". *)
Theorem progress_follows_status (ops : list Ops.op) (k : string) (t : Task.t) :
  Ops.apply_all TaskManager.init ops !! k = Some t ->
  Task.progress t = TaskManager.progress_of (Task.status t)
  /\ (Task.status t = "pending" -> Task.progress t = 0%Z)
  /\ (Task.status t = "running" -> Task.progress t = 50%Z)
  /\ (Task.status t = "completed" -> Task.progress t = 100%Z)
  /\ (Task.status t = "failed" -> Task.progress t = 0%Z).
Proof.
  intros Hk.
  assert (Task.progress t = TaskManager.progress_of (Task.status t)) as Hp.
  { revert k t Hk. induction ops as [|o ops IH] using rev_ind; intros k t Hk.
    - unfold Ops.apply_all, TaskManager.init in Hk. simpl in Hk.
      by rewrite lookup_empty in Hk.
    - rewrite apply_all_snoc in Hk. destruct o; simpl in Hk.
      + apply lookup_insert_Some in Hk as [[_ <-]|[_ Hk]]; [done|by eapply IH].
      + destruct (decide (task_id = k)) as [->|Hne].
        * destruct (Ops.apply_all TaskManager.init ops !! k) as [t0|] eqn:Ht0.
          -- erewrite update_task_lookup_eq in Hk by done. by simplify_eq.
          -- rewrite update_task_absent in Hk by done. congruence.
        * rewrite update_task_lookup_ne in Hk by done. by eapply IH. }
  split; [done|]. rewrite Hp. split_and!; by intros ->.
Qed.

(** C5.  [update_task] on an id that is not a key of the registry leaves the
    registry as it was: nothing is created and nothing changes.  The method
    has no raising path here: the membership test fails and the body is
    skipped. *)
Theorem update_task_unknown_id_noop tasks (task_id status : string)
    (result : pyval) (error : option string) (now : datetime) :
  tasks !! task_id = None ->
  TaskManager.update_task tasks task_id status result error now = tasks
  /\ TaskManager.get_task
       (TaskManager.update_task tasks task_id status result error now) task_id = None.
Proof.
  intros Hk. rewrite update_task_absent by done. done.
Qed.

(** C7.  [create_task] stores under the id it returns a record with status
    "pending", progress 0, no result, no error, and the given type and
    parameters; [get_task_status] on that id, called next, succeeds and shows
    status "pending" and progress 0. *)
Theorem create_task_pending tasks (task_type : string)
    (params : list (string * pyval)) (now_id now_created now_updated : datetime) :
  let task_id :=
    fst (TaskManager.create_task tasks task_type params now_id now_created now_updated) in
  let tasks' :=
    snd (TaskManager.create_task tasks task_type params now_id now_created now_updated) in
  exists t,
    TaskManager.get_task tasks' task_id = Some t
    /\ Task.id t = task_id
    /\ Task.type t = task_type
    /\ Task.params t = params
    /\ Task.status t = "pending"
    /\ Task.progress t = 0%Z
    /\ Task.result t = PyNone
    /\ Task.error t = None
    /\ Tools.get_task_status tasks' task_id
       = Ret (PyDict [("success", PyBool true);
                      ("message", PyStr "任务状态获取成功");
                      ("task",
                       PyDict [("id", PyStr task_id);
                               ("type", PyStr task_type);
                               ("status", PyStr "pending");
                               ("progress", PyInt 0);
                               ("created_at", PyStr (isoformat now_created));
                               ("updated_at", PyStr (isoformat now_updated));
                               ("error", PyNone)])]).
Proof.
  intros task_id tasks'. eexists. split.
  - unfold TaskManager.get_task. subst tasks'. simpl. apply lookup_insert_eq.
  - split_and!; try done.
    unfold Tools.get_task_status, TaskManager.get_task. subst tasks'. simpl.
    by rewrite lookup_insert_eq.
Qed.

(** C10.  A record stored under [k] is left as it is by [update_task] called
    on any other id, in every registry; and by [create_task] in every
    registry the manager can hold, where the call adds the id it returns,
    which was not a key, and nothing else. *)
Theorem other_records_unchanged tasks (k : string) (t : Task.t) :
  tasks !! k = Some t ->
  (forall (X status : string) (result : pyval) (error : option string) (now : datetime),
      X <> k ->
      TaskManager.update_task tasks X status result error now !! k = Some t)
  /\ (Ops.reachable tasks ->
      forall (task_type : string) (params : list (string * pyval))
             (now_id now_created now_updated : datetime),
        let task_id :=
          fst (TaskManager.create_task tasks task_type params
                 now_id now_created now_updated) in
        let tasks' :=
          snd (TaskManager.create_task tasks task_type params
                 now_id now_created now_updated) in
        tasks' !! k = Some t
        /\ task_id <> k
        /\ dom tasks' = {[task_id]} ∪ dom tasks
        /\ (task_id ∉ dom tasks)).
Proof.
  intros Hk. split.
  - intros X status result error now Hne. by rewrite update_task_lookup_ne.
  - intros Hr task_type params d1 d2 d3 task_id tasks'.
    pose proof (create_task_fresh tasks task_type params d1 d2 d3
                  (ids_bounded_reachable _ Hr)) as Hfresh.
    fold task_id in Hfresh.
    assert (task_id <> k) as Hne by congruence.
    split_and!; try done.
    + subst tasks'. simpl. by rewrite lookup_insert_ne.
    + subst tasks'. simpl. by rewrite dom_insert_L.
    + by apply not_elem_of_dom.
Qed.

End registry_claims.


Lemma progress_follows_status_witness :
  Ops.apply_all TaskManager.init Sample.ops_running !! Sample.T1 = Some Sample.t_running
  /\ Task.progress Sample.t_running = 50%Z.
Proof.
  assert (Ops.apply_all TaskManager.init Sample.ops_running !! Sample.T1
          = Some Sample.t_running) as H by (vm_compute; reflexivity).
  split; [exact H|].
  apply (progress_follows_status Sample.ops_running Sample.T1 Sample.t_running H).
  reflexivity.
Defined.

Lemma update_task_unknown_id_noop_witness :
  Sample.tasks_running !! "task_9_0" = None
  /\ TaskManager.update_task Sample.tasks_running "task_9_0" "completed"
       (PyStr "R") None Sample.d1 = Sample.tasks_running.
Proof.
  assert (Sample.tasks_running !! "task_9_0" = None) as H by (vm_compute; reflexivity).
  split; [exact H|].
  apply (update_task_unknown_id_noop Sample.tasks_running "task_9_0" "completed"
           (PyStr "R") None Sample.d1 H).
Defined.

Lemma other_records_unchanged_witness :
  TwoTasks.tasks_two !! TwoTasks.TA = Some TwoTasks.t_first
  /\ TwoTasks.tasks_two !! TwoTasks.TB = Some TwoTasks.t_second
  /\ Task.status <$>
       TaskManager.update_task TwoTasks.tasks_two TwoTasks.TB "completed" Sample.R
         None Sample.d1 !! TwoTasks.TB = Some "completed"
  /\ TaskManager.update_task TwoTasks.tasks_two TwoTasks.TB "completed" Sample.R
       None Sample.d1 !! TwoTasks.TA = Some TwoTasks.t_first
  /\ snd (TaskManager.create_task TwoTasks.tasks_two "generate_idea" Sample.params0
            Sample.d0 Sample.d0 Sample.d0) !! TwoTasks.TA = Some TwoTasks.t_first.
Proof.
  assert (TwoTasks.tasks_two !! TwoTasks.TA = Some TwoTasks.t_first) as H
    by (vm_compute; reflexivity).
  destruct (other_records_unchanged TwoTasks.tasks_two TwoTasks.TA TwoTasks.t_first H)
    as [Hupdate Hcreate].
  split; [exact H|].
  split; [vm_compute; reflexivity|].
  split; [vm_compute; reflexivity|].
  split.
  - apply Hupdate. discriminate.
  - apply Hcreate. exists TwoTasks.ops_two. reflexivity.
Defined.

(** ** Polling a completed task *)




(** ** The error stream *)

(** C9.  [error_stream_gen] yields two frames and no more.  The first is
    [data: ], the JSON text of the assistant message, and two line feeds; the
    second is [data: [DONE]] and two line feeds.  The line feed is the
    character 10 and the quote of the JSON text the character 34; the second
    frame is also given byte by byte. *)
Theorem error_stream_two_frames :
  let lf := String "010"%char EmptyString in
  let quote := String "034"%char EmptyString in
  let json :=
    "{" ++ quote ++ "choices" ++ quote ++ ": [{" ++ quote ++ "delta" ++ quote ++ ": {"
      ++ quote ++ "role" ++ quote ++ ": " ++ quote ++ "assistant" ++ quote ++ ", "
      ++ quote ++ "content" ++ quote ++ ": " ++ quote ++ "当前操作无法完成，请稍后再试"
      ++ quote ++ "}}]}" in
  StreamAPIResponse.error_stream_gen
  = ["data: " ++ json ++ lf ++ lf; "data: [DONE]" ++ lf ++ lf]
  /\ List.length StreamAPIResponse.error_stream_gen = 2%nat
  /\ StreamAPIResponse.error_stream_gen !! 2%nat = None
  /\ (map nat_of_ascii ∘ list_ascii_of_string) <$> StreamAPIResponse.error_stream_gen !! 1%nat
     = Some [100; 97; 116; 97; 58; 32; 91; 68; 79; 78; 69; 93; 10; 10]%nat
  /\ (map nat_of_ascii ∘ list_ascii_of_string) <$> StreamAPIResponse.error_stream_gen !! 0%nat
     = Some (map nat_of_ascii (list_ascii_of_string ("data: " ++ json)) ++ [10; 10]%nat)%list
  /\ json
     = Json.dumps
         (PyDict [("choices",
                   PyList [PyDict [("delta",
                                    PyDict [("role", PyStr "assistant");
                                            ("content",
                                             PyStr "当前操作无法完成，请稍后再试")])]])]).
Proof. intros lf quote json. split_and!; vm_compute; reflexivity. Qed.

(** ** The synchronous tools *)

Section sync_tools.

Import Tools.


Lemma format_paper_dict d : format_paper (PyDict d) = Ret (formatted_of d).
Proof.
  unfold format_paper, formatted_of. simpl.
  by repeat (destruct (assoc_get d _)).
Qed.

Lemma format_loop_dicts ds acc :
  format_loop (map PyDict ds) acc = Ret (acc ++ map formatted_of ds)%list.
Proof.
  revert acc. induction ds as [|d ds IH]; intros acc; cbn [map format_loop].
  - by rewrite app_nil_r.
  - rewrite format_paper_dict. cbn [mbind outcome_bind bind].
    rewrite IH. by rewrite <- app_assoc.
Qed.

Lemma search_papers_returns search_paper keyword limit :
  returns_response (search_papers search_paper keyword limit) "papers".
Proof.
  unfold search_papers, returns_response.
  destruct (search_paper keyword limit) as [papers|e]; simpl; [|by eauto].
  destruct (truthy papers); simpl; [|by eauto].
  destruct (py_iter papers) as [items|e]; simpl; [|by eauto].
  destruct (format_loop items []) as [formatted|e]; simpl; by eauto.
Qed.

Lemma extract_keywords_returns extract_technical_entities text split_section :
  returns_response (extract_keywords extract_technical_entities text split_section)
    "keywords".
Proof.
  unfold extract_keywords, returns_response.
  destruct (extract_technical_entities text split_section) as [keywords|e];
    simpl; [|by eauto].
  destruct (truthy keywords); simpl; [|by eauto].
  destruct (py_len keywords) as [n|e]; simpl; by eauto.
Qed.

Lemma review_research_idea_returns review_mechanism topic draft :
  returns_response (review_research_idea review_mechanism topic draft) "review".
Proof.
  unfold review_research_idea, returns_response.
  destruct (review_mechanism topic draft) as [v|e]; simpl; [|by eauto].
  destruct (truthy v); simpl; by eauto.
Qed.

Lemma compress_paper_content_returns paper_compression title abstract content :
  returns_response (compress_paper_content paper_compression title abstract content)
    "compressed_content".
Proof.
  unfold compress_paper_content, returns_response.
  destruct (paper_compression title abstract content) as [v|e]; simpl; [|by eauto].
  destruct (truthy v); simpl; by eauto.
Qed.

Lemma search_papers_success search_paper keyword limit d ds :
  search_paper keyword limit = Ret (PyList (map PyDict (d :: ds))) ->
  search_papers search_paper keyword limit
  = Ret (response true
           ("成功搜索到 " ++ pretty (List.length (d :: ds)) ++ " 篇论文")
           "papers" (PyList (map formatted_of (d :: ds)))).
Proof.
  intros Hc. unfold search_papers. rewrite Hc.
  change (map PyDict (d :: ds)) with (PyDict d :: map PyDict ds).
  cbn [mbind outcome_bind bind truthy negb py_iter].
  change (PyDict d :: map PyDict ds) with (map PyDict (d :: ds)).
  rewrite format_loop_dicts.
  cbn [mbind outcome_bind bind app try_except mret outcome_ret].
  by rewrite length_map.
Qed.

(** On collaborators that return or raise below [Exception], the tools of
    [AnyRaise] are the tools of [Tools]. *)
Lemma any_raise_agrees
    (search_paper : string -> Z -> outcome pyval)
    (extract_technical_entities review_mechanism : string -> string -> outcome pyval)
    (paper_compression : string -> string -> string -> outcome pyval)
    (keyword : string) (limit : Z)
    (text split_section topic draft title abstract content : string) :
  AnyRaise.search_papers (fun k l => AnyRaise.lift (search_paper k l)) keyword limit
  = AnyRaise.lift (search_papers search_paper keyword limit)
  /\ AnyRaise.extract_keywords
       (fun x y => AnyRaise.lift (extract_technical_entities x y)) text split_section
     = AnyRaise.lift (extract_keywords extract_technical_entities text split_section)
  /\ AnyRaise.review_research_idea
       (fun x y => AnyRaise.lift (review_mechanism x y)) topic draft
     = AnyRaise.lift (review_research_idea review_mechanism topic draft)
  /\ AnyRaise.compress_paper_content
       (fun x y z => AnyRaise.lift (paper_compression x y z)) title abstract content
     = AnyRaise.lift (compress_paper_content paper_compression title abstract content).
Proof.
  unfold AnyRaise.search_papers, AnyRaise.extract_keywords,
    AnyRaise.review_research_idea, AnyRaise.compress_paper_content,
    search_papers, extract_keywords, review_research_idea, compress_paper_content.
  split_and!.
  - destruct (search_paper keyword limit) as [v|e]; [|done]. simpl.
    destruct (truthy v); [|done]. simpl.
    destruct (py_iter v) as [items|e]; [|done]. simpl.
    by destruct (format_loop items []).
  - destruct (extract_technical_entities text split_section) as [v|e]; [|done]. simpl.
    destruct (truthy v); [|done]. simpl. by destruct (py_len v).
  - destruct (review_mechanism topic draft) as [v|e]; [|done]. simpl.
    by destruct (truthy v).
  - destruct (paper_compression title abstract content) as [v|e]; [|done]. simpl.
    by destruct (truthy v).
Qed.

End sync_tools.

(** C4, as stated, fails: a collaborator that raises [SystemExit], a class
    that [except Exception] does not match, makes [search_papers] raise it to
    its caller instead of returning a dictionary. *)
Lemma search_papers_lets_SystemExit_through :
  let search_paper := fun (_ : string) (_ : Z) =>
    AnyRaise.Propagate (AnyRaise.BaseOnly (Exc "SystemExit" "1")) : AnyRaise.outcome_any pyval in
  AnyRaise.search_papers search_paper "black hole" 5
  = AnyRaise.Propagate (AnyRaise.BaseOnly (Exc "SystemExit" "1"))
  /\ ~ (exists d, AnyRaise.search_papers search_paper "black hole" 5 = AnyRaise.Return d).
Proof.
  intros search_paper. split; [reflexivity|]. intros [d Hd]. discriminate Hd.
Qed.

Section sync_tools_any.

Import AnyRaise.

(** C4, amended.  Each of the four synchronous tools returns a dictionary
    with the keys success, message and its data field whenever its
    collaborator returns a value or raises an exception of a class below
    [Exception]: on such an exception, success [False], the tool's prefix
    followed by [str(e)] as message, and the empty data field; on a falsy
    value, success [False], the tool's fixed message and the empty data
    field (for [search_papers]: [papers: []]); on the value its contract
    promises (a non-empty list of paper records, a non-empty list of
    keywords, a truthy review or text), success [True], a message and the
    data.  An exception of a class that derives from [BaseException] only
    ([SystemExit], [KeyboardInterrupt]) is not caught: the tool raises it to
    its caller. *)
Theorem sync_tools_absorb_failures
    (search_paper : string -> Z -> outcome_any pyval)
    (extract_technical_entities review_mechanism : string -> string -> outcome_any pyval)
    (paper_compression : string -> string -> string -> outcome_any pyval)
    (keyword : string) (limit : Z)
    (text split_section topic draft title abstract content : string) :
  let reply := fun (success : bool) (message data_field : string) (data : pyval) =>
    Return (PyDict [("success", PyBool success); ("message", PyStr message);
                    (data_field, data)]) in
  let paper_of := fun d : list (string * pyval) =>
    PyDict [("title", default (PyStr "") (assoc_get d "title"));
            ("authors", default (PyList []) (assoc_get d "authors"));
            ("abstract", default (PyStr "") (assoc_get d "abstract"));
            ("published", default (PyStr "") (assoc_get d "published"));
            ("url", default (PyStr "") (assoc_get d "url"));
            ("pdf_url", default (PyStr "") (assoc_get d "pdf_url"))] in
  let sp := search_papers search_paper keyword limit in
  let ek := extract_keywords extract_technical_entities text split_section in
  let rr := review_research_idea review_mechanism topic draft in
  let cp := compress_paper_content paper_compression title abstract content in
  (((forall e, search_paper keyword limit <> Propagate (BaseOnly e)) ->
      exists success message data, sp = reply success message "papers" data)
   /\ ((forall e, extract_technical_entities text split_section <> Propagate (BaseOnly e)) ->
      exists success message data, ek = reply success message "keywords" data)
   /\ ((forall e, review_mechanism topic draft <> Propagate (BaseOnly e)) ->
      exists success message data, rr = reply success message "review" data)
   /\ ((forall e, paper_compression title abstract content <> Propagate (BaseOnly e)) ->
      exists success message data, cp = reply success message "compressed_content" data))
  /\ ((forall e, search_paper keyword limit = Propagate (Below e) ->
         sp = reply false ("搜索论文时出错: " ++ exc_str e) "papers" (PyList []))
      /\ (forall e, extract_technical_entities text split_section = Propagate (Below e) ->
         ek = reply false ("提取关键词时出错: " ++ exc_str e) "keywords" (PyList []))
      /\ (forall e, review_mechanism topic draft = Propagate (Below e) ->
         rr = reply false ("评审时出错: " ++ exc_str e) "review" PyNone)
      /\ (forall e, paper_compression title abstract content = Propagate (Below e) ->
         cp = reply false ("压缩时出错: " ++ exc_str e) "compressed_content" PyNone))
  /\ ((forall v, search_paper keyword limit = Return v -> truthy v = false ->
         sp = reply false "未找到相关论文" "papers" (PyList []))
      /\ (forall v, extract_technical_entities text split_section = Return v ->
         truthy v = false ->
         ek = reply false "未能提取到关键词" "keywords" (PyList []))
      /\ (forall v, review_mechanism topic draft = Return v -> truthy v = false ->
         rr = reply false "评审失败" "review" PyNone)
      /\ (forall v, paper_compression title abstract content = Return v ->
         truthy v = false ->
         cp = reply false "压缩失败" "compressed_content" PyNone))
  /\ ((forall d ds, search_paper keyword limit = Return (PyList (map PyDict (d :: ds))) ->
         sp = reply true
                ("成功搜索到 " ++ pretty (List.length (d :: ds)) ++ " 篇论文")
                "papers" (PyList (map paper_of (d :: ds))))
      /\ (forall x l, extract_technical_entities text split_section
                      = Return (PyList (x :: l)) ->
         ek = reply true
                ("成功提取到 " ++ pretty (List.length (x :: l)) ++ " 个关键词")
                "keywords" (PyList (x :: l)))
      /\ (forall v, review_mechanism topic draft = Return v -> truthy v = true ->
         rr = reply true "评审完成" "review" v)
      /\ (forall v, paper_compression title abstract content = Return v ->
         truthy v = true ->
         cp = reply true "压缩完成" "compressed_content" v))
  /\ ((forall e, search_paper keyword limit = Propagate (BaseOnly e) ->
         sp = Propagate (BaseOnly e))
      /\ (forall e, extract_technical_entities text split_section = Propagate (BaseOnly e) ->
         ek = Propagate (BaseOnly e))
      /\ (forall e, review_mechanism topic draft = Propagate (BaseOnly e) ->
         rr = Propagate (BaseOnly e))
      /\ (forall e, paper_compression title abstract content = Propagate (BaseOnly e) ->
         cp = Propagate (BaseOnly e))).
Proof.
  intros reply paper_of sp ek rr cp. subst reply sp ek rr cp.
  unfold search_papers, extract_keywords, review_research_idea, compress_paper_content.
  split; [|split; [|split; [|split]]].
  - split_and!.
    + intros Hne. destruct (search_paper keyword limit) as [v|[e|e]]; simpl;
        [|by eauto|by destruct (Hne e)].
      destruct (truthy v); simpl; [|by eauto].
      destruct (py_iter v) as [items|e]; simpl; [|by eauto].
      destruct (Tools.format_loop items []) as [formatted|e]; simpl; by eauto.
    + intros Hne. destruct (extract_technical_entities text split_section) as [v|[e|e]];
        simpl; [|by eauto|by destruct (Hne e)].
      destruct (truthy v); simpl; [|by eauto].
      destruct (py_len v) as [n|e]; simpl; by eauto.
    + intros Hne. destruct (review_mechanism topic draft) as [v|[e|e]]; simpl;
        [|by eauto|by destruct (Hne e)].
      destruct (truthy v); simpl; by eauto.
    + intros Hne. destruct (paper_compression title abstract content) as [v|[e|e]];
        simpl; [|by eauto|by destruct (Hne e)].
      destruct (truthy v); simpl; by eauto.
  - split_and!; intros e ->; reflexivity.
  - split_and!; intros v -> Hv; simpl; rewrite Hv; reflexivity.
  - split_and!.
    + intros d ds ->.
      change (map PyDict (d :: ds)) with (PyDict d :: map PyDict ds).
      cbn [mbind outcome_any_bind bind_any truthy negb py_iter lift].
      change (PyDict d :: map PyDict ds) with (map PyDict (d :: ds)).
      rewrite format_loop_dicts.
      cbn [lift mbind outcome_any_bind bind_any app try_except_Exception mret
             outcome_any_ret].
      rewrite length_map. reflexivity.
    + intros x l ->. reflexivity.
    + intros v -> Hv. simpl. rewrite Hv. reflexivity.
    + intros v -> Hv. simpl. rewrite Hv. reflexivity.
  - split_and!; intros e ->; reflexivity.
Qed.

End sync_tools_any.

(** The scenarios of the synchronous tools: an empty search, a collaborator
    that raises below [Exception], a review that comes back, a compression
    that returns the empty text, and a collaborator that exits. *)
Lemma sync_tools_absorb_failures_witness :
  AnyRaise.search_papers (fun _ _ => AnyRaise.Return (PyList [])) "black hole" 0
  = AnyRaise.Return (PyDict [("success", PyBool false);
                             ("message", PyStr "未找到相关论文");
                             ("papers", PyList [])])
  /\ AnyRaise.extract_keywords
       (fun _ _ => AnyRaise.Propagate (AnyRaise.Below (Exc "ValueError" "no such section")))
       "Dark matter haloes" "Paper Abstract"
     = AnyRaise.Return (PyDict [("success", PyBool false);
                                ("message", PyStr "提取关键词时出错: no such section");
                                ("keywords", PyList [])])
  /\ AnyRaise.review_research_idea (fun _ _ => AnyRaise.Return (PyStr "sound"))
       "haloes" "draft"
     = AnyRaise.Return (PyDict [("success", PyBool true);
                                ("message", PyStr "评审完成");
                                ("review", PyStr "sound")])
  /\ AnyRaise.compress_paper_content
       (fun _ _ _ => AnyRaise.Propagate (AnyRaise.BaseOnly (Exc "KeyboardInterrupt" "")))
       "T" "" ""
     = AnyRaise.Propagate (AnyRaise.BaseOnly (Exc "KeyboardInterrupt" ""))
  /\ (exists success message data,
        AnyRaise.search_papers (fun _ _ => AnyRaise.Return (PyList [])) "black hole" 0
        = AnyRaise.Return (PyDict [("success", PyBool success);
                                   ("message", PyStr message); ("papers", data)])).
Proof.
  destruct (sync_tools_absorb_failures
              (fun _ _ => AnyRaise.Return (PyList []))
              (fun _ _ => AnyRaise.Propagate
                            (AnyRaise.Below (Exc "ValueError" "no such section")))
              (fun _ _ => AnyRaise.Return (PyStr "sound"))
              (fun _ _ _ => AnyRaise.Propagate
                              (AnyRaise.BaseOnly (Exc "KeyboardInterrupt" "")))
              "black hole" 0 "Dark matter haloes" "Paper Abstract" "haloes" "draft"
              "T" "" "")
    as ((Htotal & _) & (_ & Hraise & _ & _) & (Hempty & _) & (_ & _ & Hreview & _)
        & (_ & _ & _ & Hbase)).
  split; [|split; [|split; [|split]]].
  - apply (Hempty (PyList [])); reflexivity.
  - apply (Hraise (Exc "ValueError" "no such section")); reflexivity.
  - apply (Hreview (PyStr "sound")); reflexivity.
  - apply (Hbase (Exc "KeyboardInterrupt" "")); reflexivity.
  - apply Htotal. intros e. discriminate.
Defined.

(** ** The life of a task under the dispatcher *)

Section dispatcher.

Import Dispatcher.

Implicit Types (s : state) (co : coroutine) (t : Task.t).


Lemma inv_init : inv init.
Proof.
  split; simpl.
  - apply ids_bounded_init.
  - constructor.
  - intros co Hco. by apply elem_of_nil in Hco.
  - intros k t Hk. unfold TaskManager.init in Hk. by rewrite lookup_empty in Hk.
  - intros k t Hk. unfold TaskManager.init in Hk. by rewrite lookup_empty in Hk.
Qed.

Lemma sched_ids_insert (sched : list coroutine) i co p :
  sched !! i = Some co ->
  co_task_id <$> <[i := with_pc co p]> sched = co_task_id <$> sched.
Proof.
  intros Hi. rewrite list_fmap_insert. simpl.
  apply list_insert_id. by rewrite list_lookup_fmap, Hi.
Qed.


Lemma moves_refl s k : moves s s k.
Proof. unfold moves. destruct (tasks s !! k) eqn:Hk; [eauto|done]. Qed.

Lemma inv_generate s keyword paper_count d1 d2 d3 running_loop :
  inv s ->
  inv (snd (generate_research_idea s keyword paper_count d1 d2 d3 running_loop)).
Proof.
  intros [Hids Hnd Hsched Hidle Hfields].
  pose proof (create_task_fresh (tasks s) "generate_research_idea"
                [("keyword", PyStr keyword); ("paper_count", PyInt paper_count)]
                d1 d2 d3 Hids) as Hfresh.
  unfold generate_research_idea. simpl in *.
  set (k0 := TaskManager.task_id_of (size (tasks s) + 1) (timestamp_int d1)) in *.
  assert (k0 ∉ co_task_id <$> scheduled s) as Hk0.
  { intros (co & -> & Hco)%list_elem_of_fmap.
    destruct (Hsched co Hco) as (t & Ht & _). congruence. }
  assert (forall co, co ∈ scheduled s -> co_task_id co <> k0) as Hold.
  { intros co Hco Heq. apply Hk0, list_elem_of_fmap. exists co. by split. }
  destruct running_loop; simpl; split; simpl.
  - by apply (ids_bounded_create (tasks s) "generate_research_idea" _ d1 d2 d3).
  - rewrite fmap_app. simpl. apply NoDup_app. split_and!; [done| |apply NoDup_singleton].
    intros k Hk Hk'. apply list_elem_of_singleton in Hk' as ->. done.
  - intros co [Hco|Hco]%elem_of_app.
    + rewrite lookup_insert_ne by (apply not_eq_sym; auto). auto.
    + apply list_elem_of_singleton in Hco as ->. simpl.
      rewrite lookup_insert_eq. eauto.
  - intros k t Hk Hnot. apply lookup_insert_Some in Hk as [[_ <-]|[_ Hk]]; [done|].
    apply (Hidle k t Hk). rewrite fmap_app in Hnot. by apply not_elem_of_app in Hnot as [? _].
  - intros k t Hk. apply lookup_insert_Some in Hk as [[_ <-]|[_ Hk]]; [|by eauto].
    split; simpl; done.
  - by apply (ids_bounded_create (tasks s) "generate_research_idea" _ d1 d2 d3).
  - done.
  - intros co Hco.
    rewrite lookup_insert_ne by (apply not_eq_sym; auto). auto.
  - intros k t Hk Hnot. apply lookup_insert_Some in Hk as [[_ <-]|[_ Hk]]; [done|].
    by apply (Hidle k t Hk).
  - intros k t Hk. apply lookup_insert_Some in Hk as [[_ <-]|[_ Hk]]; [|by eauto].
    split; simpl; done.
Qed.

Lemma moves_generate s keyword paper_count d1 d2 d3 running_loop k :
  inv s ->
  moves s (snd (generate_research_idea s keyword paper_count d1 d2 d3 running_loop)) k.
Proof.
  intros [Hids _ _ _ _].
  pose proof (create_task_fresh (tasks s) "generate_research_idea"
                [("keyword", PyStr keyword); ("paper_count", PyInt paper_count)]
                d1 d2 d3 Hids) as Hfresh.
  assert (tasks (snd (generate_research_idea s keyword paper_count d1 d2 d3 running_loop))
          = snd (TaskManager.create_task (tasks s) "generate_research_idea"
                   [("keyword", PyStr keyword); ("paper_count", PyInt paper_count)]
                   d1 d2 d3)) as Htasks.
  { unfold generate_research_idea. by destruct running_loop. }
  unfold moves. rewrite Htasks. clear Htasks. simpl in *.
  destruct (tasks s !! k) as [t|] eqn:Hk.
  - exists t. split; [|by left].
    rewrite lookup_insert_ne; [done|]. intros <-. congruence.
  - intros t' Ht'. apply lookup_insert_Some in Ht' as [[_ <-]|[_ Ht']]; [done|congruence].
Qed.

Lemma sched_ids_distinct s i j co co' :
  inv s -> scheduled s !! i = Some co -> scheduled s !! j = Some co' ->
  i <> j -> co_task_id co' <> co_task_id co.
Proof.
  intros Hinv Hi Hj Hne Heq. apply Hne.
  apply (NoDup_lookup (co_task_id <$> scheduled s) i j (co_task_id co)).
  - apply Hinv.
  - by rewrite list_lookup_fmap, Hi.
  - rewrite list_lookup_fmap, Hj. simpl. by rewrite Heq.
Qed.

Lemma inv_resume s i co p status result error now :
  inv s -> scheduled s !! i = Some co ->
  pc_status p status ->
  (result <> PyNone -> status = "completed") ->
  (error <> None -> status = "failed") ->
  inv (State (TaskManager.update_task (tasks s) (co_task_id co) status result error now)
             (<[i := with_pc co p]> (scheduled s))).
Proof.
  intros Hinv Hi Hp Hres Herr.
  pose proof Hinv as [Hids Hnd Hsched Hidle Hfields].
  assert (co ∈ scheduled s) as Hco by (by eapply list_elem_of_lookup_2).
  destruct (Hsched co Hco) as (t0 & Ht0 & _).
  split; simpl.
  - by apply ids_bounded_update.
  - by rewrite sched_ids_insert.
  - intros co' [j Hj]%list_elem_of_lookup_1.
    destruct (decide (i = j)) as [<-|Hne].
    + rewrite list_lookup_insert_eq in Hj by (by eapply lookup_lt_Some).
      injection Hj as <-. simpl.
      erewrite update_task_lookup_eq by done. eexists. split; [done|]. done.
    + rewrite list_lookup_insert_ne in Hj by done.
      rewrite update_task_lookup_ne
        by (apply not_eq_sym; by eapply (sched_ids_distinct s i j)).
      apply Hsched. by eapply list_elem_of_lookup_2.
  - intros k t Hk Hnot. rewrite sched_ids_insert in Hnot by done.
    assert (co_task_id co <> k) as Hne.
    { intros <-. apply Hnot, list_elem_of_fmap. eauto. }
    rewrite update_task_lookup_ne in Hk by done. by eapply Hidle.
  - intros k t Hk. destruct (decide (co_task_id co = k)) as [<-|Hne].
    + erewrite update_task_lookup_eq in Hk by done. injection Hk as <-.
      split; simpl; done.
    + rewrite update_task_lookup_ne in Hk by done. by eapply Hfields.
Qed.

Lemma moves_resume s i co sched' status result error now k :
  inv s -> scheduled s !! i = Some co ->
  (forall old, pc_status (co_pc co) old -> advance old status) ->
  moves s (State (TaskManager.update_task (tasks s) (co_task_id co)
                    status result error now) sched') k.
Proof.
  intros Hinv Hi Hadv. unfold moves. simpl.
  assert (co ∈ scheduled s) as Hco by (by eapply list_elem_of_lookup_2).
  destruct (inv_sched s Hinv co Hco) as (t0 & Ht0 & Hpc).
  destruct (decide (co_task_id co = k)) as [<-|Hne].
  - rewrite Ht0. erewrite update_task_lookup_eq by done.
    eexists. split; [done|]. right. simpl. by apply Hadv.
  - rewrite update_task_lookup_ne by done.
    destruct (tasks s !! k) as [t|] eqn:Hk; [|done]. eauto.
Qed.

Lemma step_inv s ev s' : inv s -> step s ev = Some s' -> inv s'.
Proof.
  intros Hinv Hstep. destruct ev; simpl in Hstep.
  - injection Hstep as <-. by apply inv_generate.
  - destruct (scheduled s !! i) as [co|] eqn:Hi; [|done].
    destruct (co_pc co) eqn:Hpc; try done. injection Hstep as <-.
    unfold resume_start. by apply inv_resume.
  - destruct (scheduled s !! i) as [co|] eqn:Hi; [|done].
    destruct (co_pc co) eqn:Hpc; try done. injection Hstep as <-.
    unfold resume_await. destruct astro_main as [result|e].
    + apply inv_resume; try done. simpl. by left.
    + apply inv_resume; try done. simpl. by right.
  - by injection Hstep as <-.
Qed.

Lemma step_moves s ev s' k : inv s -> step s ev = Some s' -> moves s s' k.
Proof.
  intros Hinv Hstep. destruct ev; simpl in Hstep.
  - injection Hstep as <-. by apply moves_generate.
  - destruct (scheduled s !! i) as [co|] eqn:Hi; [|done].
    destruct (co_pc co) eqn:Hpc; try done. injection Hstep as <-.
    unfold resume_start. eapply moves_resume; [done..|].
    rewrite Hpc. simpl. intros old ->. by left.
  - destruct (scheduled s !! i) as [co|] eqn:Hi; [|done].
    destruct (co_pc co) eqn:Hpc; try done. injection Hstep as <-.
    unfold resume_await. destruct astro_main as [result|e];
      (eapply moves_resume; [done..|]); rewrite Hpc; simpl; intros old ->; right; auto.
  - injection Hstep as <-. apply moves_refl.
Qed.

Lemma run_head s evs : exists rest, run s evs = s :: rest.
Proof. destruct evs as [|ev evs]; simpl; [eauto|]. destruct (step s ev); eauto. Qed.

Lemma run_inv evs s s' : inv s -> s' ∈ run s evs -> inv s'.
Proof.
  revert s. induction evs as [|ev evs IH]; intros s Hinv Hin; simpl in Hin.
  - by apply list_elem_of_singleton in Hin as ->.
  - destruct (step s ev) as [s1|] eqn:Hstep.
    + apply elem_of_cons in Hin as [->|Hin]; [done|].
      eapply IH; [|done]. by eapply step_inv.
    + by apply list_elem_of_singleton in Hin as ->.
Qed.

Lemma observed_cons k s l :
  observed k (s :: l)
  = match tasks s !! k with
    | Some t => Task.status t :: observed k l
    | None => observed k l
    end.
Proof. unfold observed. simpl. by destruct (tasks s !! k). Qed.

Lemma squash_cons a b l :
  squash (a :: b :: l) = if String.eqb a b then squash (b :: l) else a :: squash (b :: l).
Proof. reflexivity. Qed.

(** Along a run, the statuses seen for a task, repetitions dropped, move
    forward one step at a time, starting from the status the task has (or
    from "pending", if the task does not exist yet). *)
Lemma observed_chain k evs s :
  inv s ->
  let seen := squash (observed k (run s evs)) in
  chain seen
  /\ match tasks s !! k with
     | Some t => head seen = Some (Task.status t)
     | None => head seen = None \/ head seen = Some "pending"
     end.
Proof.
  revert s. induction evs as [|ev evs IH]; intros s Hinv seen; subst seen.
  - cbn [run]. rewrite observed_cons. unfold observed. simpl.
    destruct (tasks s !! k); simpl; auto.
  - cbn [run]. destruct (step s ev) as [s1|] eqn:Hstep.
    2:{ rewrite observed_cons. unfold observed. simpl.
        destruct (tasks s !! k); simpl; auto. }
    pose proof (step_inv _ _ _ Hinv Hstep) as Hinv1.
    pose proof (step_moves _ _ _ k Hinv Hstep) as Hmoves.
    destruct (IH s1 Hinv1) as [Hchain Hhead].
    unfold moves in Hmoves. rewrite observed_cons.
    destruct (tasks s !! k) as [t|] eqn:Hk.
    + destruct Hmoves as (t' & Ht' & Hstatus). rewrite Ht' in Hhead.
      destruct (run_head s1 evs) as [rest Hrun]. rewrite Hrun in *.
      rewrite observed_cons, Ht' in *.
      rewrite squash_cons.
      destruct (squash (Task.status t' :: observed k rest)) as [|b l'] eqn:Hsq;
        [done|]. simpl in Hhead. injection Hhead as ->.
      destruct (String.eqb (Task.status t) (Task.status t')) eqn:Heqb.
      * apply String.eqb_eq in Heqb. split; [done|]. simpl. by rewrite Heqb.
      * apply String.eqb_neq in Heqb. split; [|done].
        cbn [chain]. split; [|done].
        destruct Hstatus as [Hsame|Hadv]; [congruence|done].
    + split; [done|]. destruct (tasks s1 !! k) as [t'|] eqn:Ht'; [|done].
      right. rewrite Hhead. f_equal. by apply Hmoves.
Qed.

Lemma chain_from_pending l :
  chain l -> head l = None \/ head l = Some "pending" ->
  l `prefix_of` ["pending"; "running"; "completed"]
  \/ l `prefix_of` ["pending"; "running"; "failed"].
Proof.
  intros Hchain Hhead.
  destruct l as [|a l]; [left; apply prefix_nil|].
  destruct Hhead as [Hhead|Hhead]; [done|]. injection Hhead as ->.
  destruct l as [|b l]; [left; by eexists|].
  destruct Hchain as [Hab Hchain].
  assert (b = "running") as Hb by (destruct Hab as [[_ ?]|[? _]]; done).
  subst b.
  destruct l as [|c l]; [left; by eexists|].
  destruct Hchain as [Hbc Hchain].
  assert (c = "completed" \/ c = "failed") as Hc
    by (destruct Hbc as [[? _]|[_ ?]]; done).
  destruct l as [|d l].
  - destruct Hc; subst c; [left|right]; by exists [].
  - destruct Hchain as [Hcd _].
    destruct Hcd as [[Hc' _]|[Hc' _]]; subst c; by destruct Hc.
Qed.

(** C2, as stated, fails: [update_task] takes any status at any time.  A
    task that is completed is set back to "running" by a later call. *)
Lemma update_task_leaves_completed :
  Task.status <$> Sample.tasks_completed !! Sample.T1 = Some "completed"
  /\ Task.status <$>
       TaskManager.update_task Sample.tasks_completed Sample.T1 "running"
         PyNone None Sample.d1 !! Sample.T1
     = Some "running"
  /\ Ops.reachable Sample.tasks_completed.
Proof.
  split_and!; [vm_compute; reflexivity..|].
  exists (Sample.ops_running
            ++ [Ops.Update Sample.T1 "completed" Sample.R None Sample.d1])%list.
  reflexivity.
Qed.

(** C2, amended.  Under the calls that the dispatcher makes (the tool
    [generate_research_idea] and the segments of its coroutines, in any
    interleaving, with polls in between), the statuses seen for a task id over
    time, repetitions dropped, are a prefix of pending, running, completed or
    of pending, running, failed: no task is seen leaving "completed" or
    "failed".  [update_task] itself does not check the order. *)
Theorem dispatcher_status_sequence (evs : list event) (task_id : string) :
  let seen := squash (observed task_id (run init evs)) in
  seen `prefix_of` ["pending"; "running"; "completed"]
  \/ seen `prefix_of` ["pending"; "running"; "failed"].
Proof.
  intros seen.
  destruct (observed_chain task_id evs init inv_init) as [Hchain Hhead].
  apply chain_from_pending; [done|].
  unfold init, TaskManager.init in Hhead. simpl in Hhead.
  by rewrite lookup_empty in Hhead.
Qed.

(** C8.  In every state that the dispatcher reaches, every task record has
    a result other than [None] only when its status is "completed", and an
    error other than [None] only when its status is "failed". *)
Theorem result_and_error_match_status
    (evs : list event) (i : nat) (s : state) (k : string) (t : Task.t) :
  run init evs !! i = Some s ->
  tasks s !! k = Some t ->
  (Task.result t <> PyNone -> Task.status t = "completed")
  /\ (Task.error t <> None -> Task.status t = "failed").
Proof.
  intros Hs Hk.
  assert (inv s) as Hinv.
  { eapply run_inv; [apply inv_init|]. by eapply list_elem_of_lookup_2. }
  by apply (inv_fields s Hinv k t).
Qed.

End dispatcher.

Lemma result_and_error_match_status_witness :
  Dispatcher.run Dispatcher.init Sample.evs_done !! 3%nat = Some Sample.s_done
  /\ Dispatcher.tasks Sample.s_done !! Sample.T2 = Some Sample.t_done
  /\ Task.result Sample.t_done <> PyNone
  /\ Task.status Sample.t_done = "completed".
Proof.
  assert (Dispatcher.run Dispatcher.init Sample.evs_done !! 3%nat = Some Sample.s_done)
    as Hrun by (vm_compute; reflexivity).
  assert (Dispatcher.tasks Sample.s_done !! Sample.T2 = Some Sample.t_done)
    as Hk by (vm_compute; reflexivity).
  assert (Task.result Sample.t_done <> PyNone) as Hres by discriminate.
  split; [exact Hrun|]. split; [exact Hk|]. split; [exact Hres|].
  apply (result_and_error_match_status Sample.evs_done 3 Sample.s_done Sample.T2
           Sample.t_done Hrun Hk).
  exact Hres.
Defined.

(** * Further properties *)

(** ** The registry, beyond the claims *)

Section registry_more.

Implicit Types (tasks : gmap string Task.t) (t : Task.t).

Lemma update_task_dom tasks k status result error now :
  dom (TaskManager.update_task tasks k status result error now) = dom tasks.
Proof.
  unfold TaskManager.update_task. destruct (tasks !! k) as [t|] eqn:Ht; [|done].
  rewrite dom_insert_L. apply elem_of_dom_2 in Ht. set_solver.
Qed.

Lemma apply_all_dom ops tasks :
  dom (Ops.apply_all tasks ops) = dom tasks ∪ list_to_set (Ops.returned_ids tasks ops).
Proof.
  revert tasks. induction ops as [|o ops IH]; intros tasks; simpl; [set_solver|].
  rewrite IH. destruct o; simpl.
  - rewrite dom_insert_L. set_solver.
  - rewrite update_task_dom. done.
Qed.

Lemma apply_all_size ops tasks :
  ids_bounded tasks ->
  size (Ops.apply_all tasks ops) = (size tasks + List.length (Ops.returned_ids tasks ops))%nat.
Proof.
  revert tasks. induction ops as [|o ops IH]; intros tasks Hb; simpl; [lia|].
  rewrite IH by (by apply ids_bounded_apply).
  destruct o; simpl.
  - rewrite map_size_insert_None; [lia|].
    by apply (create_task_fresh tasks task_type params now_id now_created now_updated).
  - rewrite update_task_size. done.
Qed.

Lemma returned_ids_counter ops tasks j k :
  ids_bounded tasks ->
  Ops.returned_ids tasks ops !! j = Some k ->
  exists ts, k = TaskManager.task_id_of (size tasks + j + 1) ts.
Proof.
  revert tasks j. induction ops as [|o ops IH]; intros tasks j Hb Hj; [done|].
  pose proof (ids_bounded_apply tasks o Hb) as Hb'.
  destruct o; simpl in Hj.
  - destruct j as [|j]; simpl in Hj.
    + injection Hj as <-. exists (timestamp_int now_id). f_equal. lia.
    + destruct (IH _ _ Hb' Hj) as [ts ->]. exists ts. f_equal. simpl.
      rewrite map_size_insert_None; [lia|].
      by apply (create_task_fresh tasks task_type params now_id now_created now_updated).
  - destruct (IH _ _ Hb' Hj) as [ts ->]. exists ts. f_equal. simpl.
    rewrite update_task_size. done.
Qed.

Lemma apply_id_is_key tasks o :
  (forall k t, tasks !! k = Some t -> Task.id t = k) ->
  forall k t, Ops.apply tasks o !! k = Some t -> Task.id t = k.
Proof.
  intros Hall k t Hk. destruct o; simpl in Hk.
  - apply lookup_insert_Some in Hk as [[<- <-]|[_ Hk]]; [done|by apply Hall].
  - destruct (decide (task_id = k)) as [->|Hne].
    + destruct (tasks !! k) as [t0|] eqn:Ht0.
      * erewrite update_task_lookup_eq in Hk by done. injection Hk as <-.
        simpl. by apply Hall.
      * rewrite update_task_absent in Hk by done. congruence.
    + rewrite update_task_lookup_ne in Hk by done. by apply Hall.
Qed.

Lemma apply_same_identity tasks o k t :
  ids_bounded tasks -> tasks !! k = Some t ->
  exists t', Ops.apply tasks o !! k = Some t' /\ same_identity t t'.
Proof.
  intros Hb Hk. destruct o; simpl.
  - pose proof (create_task_fresh tasks task_type params now_id now_created now_updated Hb)
      as Hfresh. simpl in Hfresh.
    exists t. split; [|by repeat split].
    rewrite lookup_insert_ne; [done|]. intros <-. congruence.
  - destruct (decide (task_id = k)) as [->|Hne].
    + erewrite update_task_lookup_eq by done. eexists. split; [done|]. by repeat split.
    + rewrite update_task_lookup_ne by done. exists t. split; [done|]. by repeat split.
Qed.

Lemma apply_all_same_identity ops tasks k t :
  ids_bounded tasks -> tasks !! k = Some t ->
  exists t', Ops.apply_all tasks ops !! k = Some t' /\ same_identity t t'.
Proof.
  revert tasks t. induction ops as [|o ops IH]; intros tasks t Hb Hk; simpl.
  - exists t. split; [done|]. by repeat split.
  - destruct (apply_same_identity tasks o k t Hb Hk) as (t1 & Hk1 & H1).
    destruct (IH _ _ (ids_bounded_apply _ o Hb) Hk1) as (t2 & Hk2 & H2).
    exists t2. split; [done|].
    destruct H1 as (?&?&?&?), H2 as (?&?&?&?). repeat split; congruence.
Qed.

Lemma reachable_progress ops k t :
  Ops.apply_all TaskManager.init ops !! k = Some t ->
  Task.progress t = TaskManager.progress_of (Task.status t).
Proof.
  revert k t. induction ops as [|o ops IH] using rev_ind; intros k t Hk.
  - unfold Ops.apply_all, TaskManager.init in Hk. simpl in Hk.
    by rewrite lookup_empty in Hk.
  - rewrite apply_all_snoc in Hk. destruct o; simpl in Hk.
    + apply lookup_insert_Some in Hk as [[_ <-]|[_ Hk]]; [done|by eapply IH].
    + destruct (decide (task_id = k)) as [->|Hne].
      * destruct (Ops.apply_all TaskManager.init ops !! k) as [t0|] eqn:Ht0.
        -- erewrite update_task_lookup_eq in Hk by done. by simplify_eq.
        -- rewrite update_task_absent in Hk by done. congruence.
      * rewrite update_task_lookup_ne in Hk by done. by eapply IH.
Qed.

(** X1.  The text of a task id determines the counter and the timestamp it
    was made of: two ids are equal only if both agree. *)
Theorem task_id_determines_counter_and_time (n1 n2 : nat) (ts1 ts2 : Z) :
  TaskManager.task_id_of n1 ts1 = TaskManager.task_id_of n2 ts2 ->
  n1 = n2 /\ ts1 = ts2.
Proof. apply task_id_of_inj. Qed.

(** X2.  [create_task] numbers the ids from 1 in the order of creation: on a
    fresh manager, whatever [update_task] calls come in between, the
    [j]-th id returned (counting from 0) is [task_<j+1>_<timestamp>]. *)
Theorem returned_ids_numbered (ops : list Ops.op) (j : nat) (k : string) :
  Ops.returned_ids TaskManager.init ops !! j = Some k ->
  exists ts, k = TaskManager.task_id_of (j + 1) ts.
Proof.
  intros Hj. destruct (returned_ids_counter ops TaskManager.init j k ids_bounded_init Hj)
    as [ts ->].
  exists ts. f_equal.
Qed.

(** X3.  The keys of the registry are the ids that [create_task] has
    returned, and there are as many tasks as [create_task] calls:
    [update_task] adds and removes none. *)
Theorem registry_keys_are_returned_ids (ops : list Ops.op) :
  dom (Ops.apply_all TaskManager.init ops)
  = list_to_set (Ops.returned_ids TaskManager.init ops)
  /\ size (Ops.apply_all TaskManager.init ops)
     = List.length (Ops.returned_ids TaskManager.init ops).
Proof.
  split.
  - rewrite apply_all_dom. unfold TaskManager.init. rewrite dom_empty_L. set_solver.
  - rewrite apply_all_size by apply ids_bounded_init.
    unfold TaskManager.init. by rewrite map_size_empty.
Qed.

(** X4.  In every registry the manager can hold, the "id" stored in a
    record is the key the record is stored under. *)
Theorem stored_id_is_key (ops : list Ops.op) (k : string) (t : Task.t) :
  Ops.apply_all TaskManager.init ops !! k = Some t -> Task.id t = k.
Proof.
  revert k t. induction ops as [|o ops IH] using rev_ind; intros k t Hk.
  - unfold Ops.apply_all, TaskManager.init in Hk. simpl in Hk.
    by rewrite lookup_empty in Hk.
  - rewrite apply_all_snoc in Hk. by eapply apply_id_is_key.
Qed.

(** X5.  Once a task is registered, no later call changes its id, type,
    parameters or creation time, and the task stays registered. *)
Theorem identity_fields_kept (ops ops' : list Ops.op) (k : string) (t : Task.t) :
  Ops.apply_all TaskManager.init ops !! k = Some t ->
  exists t', Ops.apply_all TaskManager.init (ops ++ ops') !! k = Some t'
             /\ same_identity t t'.
Proof.
  intros Hk. unfold Ops.apply_all. rewrite fold_left_app.
  apply apply_all_same_identity; [|done].
  apply ids_bounded_apply_all, ids_bounded_init.
Qed.

(** X6.  Two [update_task] calls on the same id amount to the second one:
    status, result, error, progress and update time are those of the last
    call, whether or not the id is registered. *)
Theorem update_task_last_wins tasks (k s1 s2 : string) (r1 r2 : pyval)
    (e1 e2 : option string) (n1 n2 : datetime) :
  TaskManager.update_task (TaskManager.update_task tasks k s1 r1 e1 n1) k s2 r2 e2 n2
  = TaskManager.update_task tasks k s2 r2 e2 n2.
Proof.
  destruct (tasks !! k) as [t|] eqn:Ht.
  - unfold TaskManager.update_task at 1.
    erewrite update_task_lookup_eq by done. simpl.
    unfold TaskManager.update_task. rewrite Ht. by rewrite insert_insert_eq.
  - by rewrite !update_task_absent by (by rewrite ?update_task_absent).
Qed.

(** X7.  [update_task] calls on two different ids can be made in either
    order. *)
Theorem update_task_commute tasks (k1 k2 s1 s2 : string) (r1 r2 : pyval)
    (e1 e2 : option string) (n1 n2 : datetime) :
  k1 <> k2 ->
  TaskManager.update_task (TaskManager.update_task tasks k1 s1 r1 e1 n1) k2 s2 r2 e2 n2
  = TaskManager.update_task (TaskManager.update_task tasks k2 s2 r2 e2 n2) k1 s1 r1 e1 n1.
Proof.
  intros Hne.
  unfold TaskManager.update_task at 1 3.
  rewrite !update_task_lookup_ne by done.
  unfold TaskManager.update_task.
  destruct (tasks !! k1) as [t1|], (tasks !! k2) as [t2|]; try done.
  by apply insert_insert_ne.
Qed.

(** X8.  [update_task] keeps the set of registered ids, whatever its
    arguments. *)
Theorem update_task_keeps_ids tasks (k status : string) (result : pyval)
    (error : option string) (now : datetime) :
  dom (TaskManager.update_task tasks k status result error now) = dom tasks
  /\ size (TaskManager.update_task tasks k status result error now) = size tasks.
Proof. split; [apply update_task_dom|apply update_task_size]. Qed.

(** X9.  In every registry the manager can hold, the progress of a task is
    0, 50 or 100; it is 100 exactly for status "completed" and 50 exactly for
    status "running". *)
Theorem progress_values (ops : list Ops.op) (k : string) (t : Task.t) :
  Ops.apply_all TaskManager.init ops !! k = Some t ->
  (Task.progress t = 0 \/ Task.progress t = 50 \/ Task.progress t = 100)%Z
  /\ (Task.progress t = 100%Z <-> Task.status t = "completed")
  /\ (Task.progress t = 50%Z <-> Task.status t = "running").
Proof.
  intros Hk. rewrite (reachable_progress ops k t Hk).
  unfold TaskManager.progress_of.
  destruct (String.eqb_spec (Task.status t) "completed") as [->|Hc]; simpl.
  - split_and!; [auto| |]; split; done.
  - destruct (String.eqb_spec (Task.status t) "running") as [->|Hr]; simpl.
    + split_and!; [auto| |]; split; done.
    + split_and!; [auto| |]; split; done.
Qed.

End registry_more.

(** ** The tools, beyond the claims *)

Section tools_more.

Import Tools.

Lemma code_points_nonempty c s : code_points (String c s) <> [].
Proof.
  unfold code_points. simpl. destruct (code_points_go s) as [pre l].
  destruct (is_cont c); simpl; done.
Qed.

Lemma format_paper_not_dict v :
  is_dict v = false ->
  format_paper v
  = Raise (Exc "AttributeError"
             (sq ++ type_name v ++ sq ++ " object has no attribute " ++ sq ++ "get" ++ sq)).
Proof. by destruct v. Qed.

Lemma format_loop_returns l acc r :
  format_loop l acc = Ret r -> exists ds, l = map PyDict ds.
Proof.
  revert acc. induction l as [|v l IH]; intros acc Hr.
  - by exists [].
  - cbn [format_loop] in Hr. destruct (is_dict v) eqn:Hv.
    + destruct v; try done. rewrite format_paper_dict in Hr.
      cbn [mbind outcome_bind bind] in Hr.
      destruct (IH _ Hr) as [ds ->]. by exists (d :: ds).
    + by rewrite format_paper_not_dict in Hr.
Qed.


Lemma not_succeeded_false message data_field data :
  ~ succeeded (Ret (response false message data_field data)).
Proof. intros (resp & [= <-] & Hf). simpl in Hf. discriminate. Qed.

Lemma succeeded_true message data_field data :
  succeeded (Ret (response true message data_field data)).
Proof. eexists. split; [done|]. reflexivity. Qed.

Lemma search_papers_succeeded_inv (search_paper : string -> Z -> outcome pyval)
    (keyword : string) (limit : Z) :
  succeeded (search_papers search_paper keyword limit) ->
  exists v items formatted,
    search_paper keyword limit = Ret v /\ truthy v = true
    /\ py_iter v = Ret items /\ format_loop items [] = Ret formatted.
Proof.
  intros Hs. unfold search_papers in Hs.
  destruct (search_paper keyword limit) as [v|e] eqn:Hc;
    [|by apply not_succeeded_false in Hs].
  cbn [mbind outcome_bind bind] in Hs.
  destruct (truthy v) eqn:Hv; cbn [negb] in Hs;
    [|by apply not_succeeded_false in Hs].
  destruct (py_iter v) as [items|e] eqn:Hi; cbn [mbind outcome_bind bind] in Hs;
    [|by apply not_succeeded_false in Hs].
  destruct (format_loop items []) as [formatted|e] eqn:Hf;
    cbn [mbind outcome_bind bind] in Hs; [|by apply not_succeeded_false in Hs].
  by eauto 10.
Qed.

(** X10.  [search_papers] reports success exactly when the collaborator
    returned a truthy value that can be iterated and each item of which
    answers the six [get] calls of the loop.  Among the values of the model
    ([None], booleans, integers, text, lists, dictionaries with string keys;
    tuples and other objects with a [get] method are outside it) these are
    the non-empty lists whose items are all dictionaries: a raised exception,
    a falsy value, a number, a text, a dictionary, and a list with an item
    that is not a dictionary all end in [success: False]. *)
Theorem search_papers_succeeds_iff (search_paper : string -> Z -> outcome pyval)
    (keyword : string) (limit : Z) :
  (succeeded (search_papers search_paper keyword limit)
   <-> exists v items formatted,
         search_paper keyword limit = Ret v /\ truthy v = true
         /\ py_iter v = Ret items /\ format_loop items [] = Ret formatted)
  /\ (succeeded (search_papers search_paper keyword limit)
      <-> exists d ds, search_paper keyword limit = Ret (PyList (map PyDict (d :: ds)))).
Proof.
  split; split.
  - apply search_papers_succeeded_inv.
  - intros (v & items & formatted & Hc & Hv & Hi & Hf).
    unfold search_papers. rewrite Hc. cbn [mbind outcome_bind bind]. rewrite Hv.
    cbn [negb]. rewrite Hi. cbn [mbind outcome_bind bind]. rewrite Hf.
    apply succeeded_true.
  - intros Hs.
    destruct (search_papers_succeeded_inv _ _ _ Hs)
      as (v & items & formatted & Hc & Hv & Hi & Hf).
    destruct (format_loop_returns _ _ _ Hf) as [ds ->].
    destruct v as [| | |s|l|d0]; simpl in Hi; try done; injection Hi as Hi.
    + destruct s as [|c s]; [done|]. exfalso.
      apply (code_points_nonempty c s). unfold chars in Hi.
      destruct (code_points (String c s)); [done|]. by destruct ds.
    + destruct ds as [|d ds]; [by subst l|]. exists d, ds. by subst l.
    + destruct d0 as [|[k x] d0]; [done|]. by destruct ds.
  - intros (d & ds & Hc). rewrite (search_papers_success _ _ _ _ _ Hc).
    apply succeeded_true.
Qed.


(** X12.  The loop body of [search_papers] brings a paper to a fixed shape:
    the six keys title, authors, abstract, published, url, pdf_url in this
    order; a value the collaborator gave under one of them is kept, a missing
    one becomes the empty text (the empty list for authors), every other key
    is dropped; a paper of that shape is left as it is. *)
Theorem format_paper_normal_form (d : list (string * pyval)) :
  exists d',
    format_paper (PyDict d) = Ret (PyDict d')
    /\ map fst d' = paper_keys
    /\ format_paper (PyDict d') = Ret (PyDict d')
    /\ (forall k, k ∈ paper_keys ->
          assoc_get d' k
          = Some (default (if String.eqb k "authors" then PyList [] else PyStr "")
                    (assoc_get d k))).
Proof.
  eexists. split; [apply format_paper_dict|]. split; [reflexivity|]. split.
  - rewrite format_paper_dict. reflexivity.
  - intros k Hk. unfold paper_keys in Hk.
    repeat (apply elem_of_cons in Hk as [->|Hk]; [reflexivity|]).
    by apply elem_of_nil in Hk.
Qed.


(** X14.  [review_research_idea] and [compress_paper_content] report
    success exactly when their collaborator returned a truthy value. *)
Theorem review_and_compress_succeed_iff
    (review_mechanism : string -> string -> outcome pyval)
    (paper_compression : string -> string -> string -> outcome pyval)
    (topic draft title abstract content : string) :
  (succeeded (review_research_idea review_mechanism topic draft)
   <-> exists v, review_mechanism topic draft = Ret v /\ truthy v = true)
  /\ (succeeded (compress_paper_content paper_compression title abstract content)
      <-> exists v, paper_compression title abstract content = Ret v /\ truthy v = true).
Proof.
  unfold review_research_idea, compress_paper_content. split; split.
  - intros Hs. destruct (review_mechanism topic draft) as [v|e];
      [|by apply not_succeeded_false in Hs].
    cbn [mbind outcome_bind bind] in Hs. destruct (truthy v) eqn:Hv; [by eauto|].
    by apply not_succeeded_false in Hs.
  - intros (v & -> & Hv). cbn [mbind outcome_bind bind]. rewrite Hv.
    apply succeeded_true.
  - intros Hs. destruct (paper_compression title abstract content) as [v|e];
      [|by apply not_succeeded_false in Hs].
    cbn [mbind outcome_bind bind] in Hs. destruct (truthy v) eqn:Hv; [by eauto|].
    by apply not_succeeded_false in Hs.
  - intros (v & -> & Hv). cbn [mbind outcome_bind bind]. rewrite Hv.
    apply succeeded_true.
Qed.



End tools_more.

(** ** The dispatcher, beyond the claims *)

Section dispatcher_more.

Import Tools Dispatcher.

Implicit Types (s : state) (co : coroutine) (t : Task.t).

Lemma generate_tasks s keyword paper_count d1 d2 d3 running_loop :
  tasks (snd (generate_research_idea s keyword paper_count d1 d2 d3 running_loop))
  = snd (TaskManager.create_task (tasks s) "generate_research_idea"
           [("keyword", PyStr keyword); ("paper_count", PyInt paper_count)] d1 d2 d3).
Proof. unfold generate_research_idea. by destruct running_loop. Qed.



Lemma step_reachable s ev s' :
  step s ev = Some s' -> Ops.reachable (tasks s) -> Ops.reachable (tasks s').
Proof.
  intros Hstep Hr. destruct ev; simpl in Hstep.
  - injection Hstep as <-. rewrite generate_tasks.
    apply (reachable_apply (tasks s)
             (Ops.Create "generate_research_idea"
                [("keyword", PyStr keyword); ("paper_count", PyInt paper_count)]
                now_id now_created now_updated) Hr).
  - destruct (scheduled s !! i) as [co|]; [|done].
    destruct (co_pc co); try done. injection Hstep as <-. simpl.
    apply (reachable_apply (tasks s)
             (Ops.Update (co_task_id co) "running" PyNone None now) Hr).
  - destruct (scheduled s !! i) as [co|]; [|done].
    destruct (co_pc co); try done. injection Hstep as <-. simpl.
    unfold resume_await. destruct astro_main as [r|e].
    + apply (reachable_apply (tasks s)
               (Ops.Update (co_task_id co) "completed" r None now) Hr).
    + apply (reachable_apply (tasks s)
               (Ops.Update (co_task_id co) "failed" PyNone
                  (Some ("生成研究想法时出错: " ++ exc_str e)) now) Hr).
  - by injection Hstep as <-.
Qed.

Lemma run_reachable evs s s' :
  s' ∈ run s evs -> Ops.reachable (tasks s) -> Ops.reachable (tasks s').
Proof.
  revert s. induction evs as [|ev evs IH]; intros s Hin Hr; simpl in Hin.
  - by apply list_elem_of_singleton in Hin as ->.
  - destruct (step s ev) as [s1|] eqn:Hstep.
    + apply elem_of_cons in Hin as [->|Hin]; [done|].
      eapply IH; [done|]. by eapply step_reachable.
    + by apply list_elem_of_singleton in Hin as ->.
Qed.

Lemma init_reachable : Ops.reachable (tasks init).
Proof. by exists []. Qed.







(** X20.  What a poll can show: in every state the dispatcher reaches, a
    registered task has one of the four pairs of status and progress
    ("pending", 0), ("running", 50), ("completed", 100), ("failed", 0). *)
Theorem polled_status_and_progress (evs : list event) (i : nat) s
    (k : string) (t : Task.t) :
  run init evs !! i = Some s ->
  tasks s !! k = Some t ->
  (Task.status t = "pending" /\ Task.progress t = 0%Z)
  \/ (Task.status t = "running" /\ Task.progress t = 50%Z)
  \/ (Task.status t = "completed" /\ Task.progress t = 100%Z)
  \/ (Task.status t = "failed" /\ Task.progress t = 0%Z).
Proof.
  intros Hs Hk.
  assert (s ∈ run init evs) as Hin by (by eapply list_elem_of_lookup_2).
  assert (inv s) as Hinv by (eapply run_inv; [apply inv_init|done]).
  destruct (run_reachable evs init s Hin init_reachable) as [ops Hops].
  assert (Task.progress t = TaskManager.progress_of (Task.status t)) as Hp.
  { apply (reachable_progress ops k). by rewrite <- Hops. }
  assert (Task.status t = "pending" \/ Task.status t = "running"
          \/ Task.status t = "completed" \/ Task.status t = "failed") as Hst.
  { destruct (decide (k ∈ co_task_id <$> scheduled s)) as [Hsched|Hidle].
    - apply list_elem_of_fmap in Hsched as (co & -> & Hco).
      destruct (inv_sched s Hinv co Hco) as (t1 & Ht1 & Hpc).
      assert (t1 = t) as -> by congruence.
      destruct (co_pc co); simpl in Hpc; tauto.
    - left. by eapply (inv_idle s Hinv). }
  rewrite Hp. destruct Hst as [H|[H|[H|H]]]; rewrite H; vm_compute; tauto.
Qed.

End dispatcher_more.

(** ** The further properties at concrete inputs *)

Lemma task_id_determines_counter_and_time_witness :
  TaskManager.task_id_of 12 3 = "task_12_3" /\ (12%nat = 12%nat /\ 3%Z = 3%Z).
Proof.
  split; [vm_compute; reflexivity|].
  apply (task_id_determines_counter_and_time 12 12 3 3). reflexivity.
Defined.

Lemma returned_ids_numbered_witness :
  Ops.returned_ids TaskManager.init Sample.ops_running !! 0%nat = Some Sample.T1
  /\ exists ts, Sample.T1 = TaskManager.task_id_of (0 + 1) ts.
Proof.
  assert (Ops.returned_ids TaskManager.init Sample.ops_running !! 0%nat = Some Sample.T1)
    as H by (vm_compute; reflexivity).
  split; [exact H|].
  apply (returned_ids_numbered Sample.ops_running 0 Sample.T1 H).
Defined.

Lemma stored_id_is_key_witness :
  Ops.apply_all TaskManager.init Sample.ops_running !! Sample.T1 = Some Sample.t_running
  /\ Task.id Sample.t_running = Sample.T1.
Proof.
  assert (Ops.apply_all TaskManager.init Sample.ops_running !! Sample.T1
          = Some Sample.t_running) as H by (vm_compute; reflexivity).
  split; [exact H|].
  apply (stored_id_is_key Sample.ops_running Sample.T1 Sample.t_running H).
Defined.

Lemma identity_fields_kept_witness :
  Ops.apply_all TaskManager.init Sample.ops_running !! Sample.T1 = Some Sample.t_running
  /\ exists t',
       Ops.apply_all TaskManager.init
         (Sample.ops_running
            ++ [Ops.Update Sample.T1 "failed" PyNone (Some "boom") Sample.d1])
       !! Sample.T1 = Some t'
       /\ same_identity Sample.t_running t'.
Proof.
  assert (Ops.apply_all TaskManager.init Sample.ops_running !! Sample.T1
          = Some Sample.t_running) as H by (vm_compute; reflexivity).
  split; [exact H|].
  apply (identity_fields_kept Sample.ops_running
           [Ops.Update Sample.T1 "failed" PyNone (Some "boom") Sample.d1]
           Sample.T1 Sample.t_running H).
Defined.

Lemma update_task_commute_witness :
  TwoTasks.TA <> TwoTasks.TB
  /\ TwoTasks.tasks_two !! TwoTasks.TA = Some TwoTasks.t_first
  /\ TwoTasks.tasks_two !! TwoTasks.TB = Some TwoTasks.t_second
  /\ TaskManager.update_task
       (TaskManager.update_task TwoTasks.tasks_two TwoTasks.TA "completed" Sample.R
          None Sample.d1)
       TwoTasks.TB "failed" PyNone (Some "boom") Sample.d1
     = TaskManager.update_task
         (TaskManager.update_task TwoTasks.tasks_two TwoTasks.TB "failed" PyNone
            (Some "boom") Sample.d1)
         TwoTasks.TA "completed" Sample.R None Sample.d1
  /\ Task.status <$>
       TaskManager.update_task
         (TaskManager.update_task TwoTasks.tasks_two TwoTasks.TA "completed" Sample.R
            None Sample.d1)
         TwoTasks.TB "failed" PyNone (Some "boom") Sample.d1 !! TwoTasks.TA
     = Some "completed"
  /\ Task.status <$>
       TaskManager.update_task
         (TaskManager.update_task TwoTasks.tasks_two TwoTasks.TA "completed" Sample.R
            None Sample.d1)
         TwoTasks.TB "failed" PyNone (Some "boom") Sample.d1 !! TwoTasks.TB
     = Some "failed".
Proof.
  assert (TwoTasks.TA <> TwoTasks.TB) as H by discriminate.
  split; [exact H|].
  split; [vm_compute; reflexivity|].
  split; [vm_compute; reflexivity|].
  split.
  - apply (update_task_commute TwoTasks.tasks_two TwoTasks.TA TwoTasks.TB "completed"
             "failed" Sample.R PyNone None (Some "boom") Sample.d1 Sample.d1 H).
  - split; vm_compute; reflexivity.
Defined.

Lemma progress_values_witness :
  Ops.apply_all TaskManager.init Sample.ops_running !! Sample.T1 = Some Sample.t_running
  /\ (Task.progress Sample.t_running = 50%Z <-> Task.status Sample.t_running = "running").
Proof.
  assert (Ops.apply_all TaskManager.init Sample.ops_running !! Sample.T1
          = Some Sample.t_running) as H by (vm_compute; reflexivity).
  split; [exact H|].
  apply (progress_values Sample.ops_running Sample.T1 Sample.t_running H).
Defined.

Lemma search_papers_succeeds_iff_witness :
  Scenario.search_ok "halo" 5 = Ret (PyList (map PyDict [Scenario.paper]))
  /\ succeeded (Tools.search_papers Scenario.search_ok "halo" 5)
  /\ ~ succeeded (Tools.search_papers (fun _ _ => Ret (PyDict Scenario.paper)) "halo" 5).
Proof.
  assert (Scenario.search_ok "halo" 5 = Ret (PyList (map PyDict [Scenario.paper])))
    as H by reflexivity.
  split; [exact H|].
  destruct (search_papers_succeeds_iff Scenario.search_ok "halo" 5) as [_ Hlist].
  destruct (search_papers_succeeds_iff (fun _ _ => Ret (PyDict Scenario.paper)) "halo" 5)
    as [_ Hdict].
  split.
  - apply Hlist. exists Scenario.paper, []. exact H.
  - intros Hs. apply Hdict in Hs as (d & ds & Hd). discriminate Hd.
Defined.


Lemma format_paper_normal_form_witness :
  "title" ∈ paper_keys
  /\ exists d',
       Tools.format_paper (PyDict Scenario.paper) = Ret (PyDict d')
       /\ assoc_get d' "title" = Some (PyStr "Halo").
Proof.
  assert ("title" ∈ paper_keys) as H by apply list_elem_of_here.
  split; [exact H|].
  destruct (format_paper_normal_form Scenario.paper) as (d' & Hfmt & _ & _ & Hkeys).
  exists d'. split; [exact Hfmt|]. exact (Hkeys "title" H).
Defined.


Lemma review_and_compress_succeed_iff_witness :
  truthy (PyStr "sound") = true
  /\ succeeded (Tools.review_research_idea (fun _ _ => Ret (PyStr "sound")) "haloes" "draft").
Proof.
  assert (truthy (PyStr "sound") = true) as Hv by reflexivity.
  split; [exact Hv|].
  destruct (review_and_compress_succeed_iff (fun _ _ => Ret (PyStr "sound"))
              (fun _ _ _ => Ret (PyStr "")) "haloes" "draft" "T" "" "") as [Hreview _].
  apply Hreview. exists (PyStr "sound"). split; [reflexivity|exact Hv].
Defined.






Lemma polled_status_and_progress_witness :
  Dispatcher.run Dispatcher.init Sample.evs_done !! 3%nat = Some Sample.s_done
  /\ Dispatcher.tasks Sample.s_done !! Sample.T2 = Some Sample.t_done
  /\ ((Task.status Sample.t_done = "pending" /\ Task.progress Sample.t_done = 0%Z)
      \/ (Task.status Sample.t_done = "running" /\ Task.progress Sample.t_done = 50%Z)
      \/ (Task.status Sample.t_done = "completed" /\ Task.progress Sample.t_done = 100%Z)
      \/ (Task.status Sample.t_done = "failed" /\ Task.progress Sample.t_done = 0%Z)).
Proof.
  assert (Dispatcher.run Dispatcher.init Sample.evs_done !! 3%nat = Some Sample.s_done)
    as H by (vm_compute; reflexivity).
  assert (Dispatcher.tasks Sample.s_done !! Sample.T2 = Some Sample.t_done) as Hk
    by (vm_compute; reflexivity).
  split; [exact H|]. split; [exact Hk|].
  apply (polled_status_and_progress Sample.evs_done 3 Sample.s_done Sample.T2
           Sample.t_done H Hk).
Defined.
